(** * Project-board ingestion and dashboard metrics

  A shallow embedding of two scripts of the repository:

  - [fetch_github_project_items.py]: the paginated GraphQL extraction
    ([run_query], [get_all_project_items]) with the per-node
    normalisation done in the body of its [for] loop;
  - [dashboard.py]: the metrics computed from the CSV snapshot
    (completion rate, completion days, assignee workload, label
    ranking, stale and recently closed lists).

  Python values are modelled as the code sees them: JSON documents as a
  tree of [json] values with dictionaries as association lists in
  insertion order, data-frame rows as records whose text cells may be
  missing (NaN), timestamps and time deltas as integer nanoseconds, and
  exceptions as an explicit result type. *)

From Stdlib Require Import ZArith QArith Lqa List String Ascii Bool Lia.
From Stdlib Require Import Permutation Sorted.
Import ListNotations.

Local Open Scope string_scope.
Local Open Scope Z_scope.

(* ===================================================================== *)
(** ** Python strings *)
(* ===================================================================== *)

(** Strings are sequences of 8-bit characters.  The methods below follow
  [str.strip], [str.split(",")] and [str.lower] on the ASCII range;
  characters above 127 are neither whitespace nor cased here. *)
Module PyStr.

(** [c.isspace()]: TAB, LF, VT, FF, CR, the four separators FS GS RS US
    and the blank. *)
Definition isspace (c : ascii) : bool :=
  let n := nat_of_ascii c in
  ((9 <=? n) && (n <=? 13) || (28 <=? n) && (n <=? 31) || (n =? 32))%nat.

(** Truth value of a string: non-empty. *)
Definition truthy (s : string) : bool :=
  match s with EmptyString => false | String _ _ => true end.

Fixpoint lstrip (s : string) : string :=
  match s with
  | EmptyString => EmptyString
  | String c r => if isspace c then lstrip r else s
  end.

Fixpoint rstrip (s : string) : string :=
  match s with
  | EmptyString => EmptyString
  | String c r =>
      let r' := rstrip r in
      if isspace c && negb (truthy r') then EmptyString else String c r'
  end.

(** [s.strip()] *)
Definition strip (s : string) : string := rstrip (lstrip s).

(** [s.split(",")]: never empty, [""] for the empty string. *)
Fixpoint split_comma (s : string) : list string :=
  match s with
  | EmptyString => [EmptyString]
  | String c r =>
      if Ascii.eqb c ","%char then EmptyString :: split_comma r
      else match split_comma r with
           | [] => [String c EmptyString]
           | h :: t => String c h :: t
           end
  end.

Definition lower_char (c : ascii) : ascii :=
  let n := nat_of_ascii c in
  if ((65 <=? n) && (n <=? 90))%nat then ascii_of_nat (n + 32) else c.

(** [s.lower()] *)
Fixpoint lower (s : string) : string :=
  match s with
  | EmptyString => EmptyString
  | String c r => String (lower_char c) (lower r)
  end.

(** [sep.join(l)] *)
Fixpoint join (sep : string) (l : list string) : string :=
  match l with
  | [] => EmptyString
  | [x] => x
  | x :: r => x ++ sep ++ join sep r
  end.

(** The comprehension [[a.strip() for a in s.split(",") if a.strip()]]. *)
Definition tokens (s : string) : list string :=
  map strip (filter (fun a => truthy (strip a)) (split_comma s)).

(** Every character of the string passes the test. *)
Definition all_chars (p : ascii -> bool) (s : string) : bool :=
  forallb p (list_ascii_of_string s).

Definition no_comma (s : string) : bool :=
  all_chars (fun c => negb (Ascii.eqb c ","%char)) s.


End PyStr.

(* ===================================================================== *)
(** ** dashboard.py *)
(* ===================================================================== *)

Module Dashboard.

(** Nanoseconds in a day: the resolution of the data frame's timestamps. *)
Definition NS_PER_DAY : Z := 86400000000000.

(** [td.days] of a time delta: the floor of the number of days, negative
    for a negative delta. *)
Definition dt_days (td : Z) : Z := td / NS_PER_DAY.

(** [ts.date()] as a day number; dates compare as their day numbers. *)
Definition dt_date (ts : Z) : Z := ts / NS_PER_DAY.

(** One row of the CSV snapshot.  An empty text cell is read back as
    NaN, here [None]; the two timestamp columns are parsed by
    [read_csv] and made timezone-naive. *)
Record row : Type := mkRow {
  title : string;
  number : option Z;
  url : option string;
  assignees : option string;
  labels : option string;
  status : option string;
  created_at : Z;
  updated_at : Z
}.

Definition DataFrame : Type := list row.

(** [series.isin(values)]; NaN is in no list of strings.  The same
    function gives [row["status"] in done_statuses]. *)
Definition isin (v : option string) (values : list string) : bool :=
  match v with
  | Some s => existsb (String.eqb s) values
  | None => false
  end.

(** [str(x)] of a text cell: a missing cell prints as [nan]. *)
Definition py_str (x : option string) : string :=
  match x with Some s => s | None => "nan" end.

(** [series.fillna("")] on one cell. *)
Definition fillna (x : option string) : string :=
  match x with Some s => s | None => "" end.

(** [mask] and [filtered_df] (the date range filter). *)
Definition mask (start_date end_date : Z) (r : row) : bool :=
  (dt_date (created_at r) >=? start_date) && (dt_date (created_at r) <=? end_date).

Definition filtered_df (start_date end_date : Z) (df : DataFrame) : DataFrame :=
  filter (mask start_date end_date) df.

Definition done_statuses : list string := ["Done"; "Closed"].

Definition total_items (filtered : DataFrame) : Z := Z.of_nat (List.length filtered).

Definition completed_items (filtered : DataFrame) : DataFrame :=
  filter (fun r => isin (status r) done_statuses) filtered.

(** [len(completed_items) / total_items * 100 if total_items > 0 else 0].
    The quotient is kept as an exact rational; the rounding of the
    machine float is not modelled. *)
Definition completion_rate (filtered : DataFrame) : Q :=
  if total_items filtered >? 0
  then (inject_Z (Z.of_nat (List.length (completed_items filtered)))
        / inject_Z (total_items filtered) * 100)%Q
  else 0%Q.

(** The [completion_days] column. *)
Definition completion_days (r : row) : Z :=
  dt_days (updated_at r - created_at r).

(** [series.mean()] of a non-empty integer column, as an exact rational. *)
Definition mean (col : list Z) : Q :=
  (inject_Z (fold_right Z.add 0%Z col) / inject_Z (Z.of_nat (List.length col)))%Q.

(** [avg_completion]; [None] stands for the branch that reports that
    there are no completed items. *)
Definition avg_completion (filtered : DataFrame) : option Q :=
  match completed_items filtered with
  | [] => None
  | _ :: _ => Some (mean (map completion_days (completed_items filtered)))
  end.

(** [closed_df] of the monthly trend. *)
Definition closed_df (filtered : DataFrame) : DataFrame :=
  filter (fun r => isin (status r) done_statuses) filtered.

(** The rows appended to [assignee_status] for one data-frame row. *)
Definition assignee_rows (r : row) : list (string * string) :=
  map (fun a => (a, if isin (status r) done_statuses then "Closed" else "Open"))
      (PyStr.tokens (py_str (assignees r))).

Definition assignee_status (filtered : DataFrame) : list (string * string) :=
  flat_map assignee_rows filtered.

(** [all_labels] *)
Definition all_labels (filtered : DataFrame) : list string :=
  flat_map (fun l => PyStr.tokens (fillna l)) (map labels filtered).

(** [Counter(all_labels)]: a dictionary from label to count whose keys
    are in first-insertion order. *)
Fixpoint counter_add (k : string) (c : list (string * nat)) : list (string * nat) :=
  match c with
  | [] => [(k, 1%nat)]
  | (k', n) :: r => if String.eqb k k' then (k', S n) :: r
                    else (k', n) :: counter_add k r
  end.

Definition Counter (l : list string) : list (string * nat) :=
  fold_left (fun c k => counter_add k c) l [].

(** The count a counter holds for a key, 0 for a key it does not hold. *)
Fixpoint counter_get (k : string) (c : list (string * nat)) : nat :=
  match c with
  | [] => 0%nat
  | (k', n) :: r => if String.eqb k k' then n else counter_get k r
  end.

(** What makes an association list a counter: each key once, no zero. *)
Definition counter_ok (c : list (string * nat)) : Prop :=
  NoDup (map fst c) /\ Forall (fun p => (0 < snd p)%nat) c.

(** The distinct elements of a list in the order of their first
    occurrence. *)
Definition first_encounters (l : list string) : list string :=
  fold_left (fun seen x => if existsb (String.eqb x) seen then seen
                           else (seen ++ [x])%list) l [].

(** [stale] *)
Definition stale (now : Z) (filtered : DataFrame) : DataFrame :=
  filter (fun r => negb (isin (status r) done_statuses)
                   && (dt_days (now - updated_at r) >? 30)) filtered.

(** [recently_closed], a selection of [completed_items]. *)
Definition recently_closed (now : Z) (completed : DataFrame) : DataFrame :=
  filter (fun r => dt_days (now - updated_at r) <=? 30) completed.

(** [multi_assignees] *)
Definition multi_assignees (filtered : DataFrame) : DataFrame :=
  filter (fun r =>
            (1 <? List.length (filter (fun a => PyStr.truthy (PyStr.strip a))
                                 (PyStr.split_comma (py_str (assignees r)))))%nat)
         filtered.

(** The lists of one run of the script on the snapshot [df] with the
    date range chosen in the page and the clock read once, at [now]. *)
Definition run_stale (start_date end_date now : Z) (df : DataFrame) : DataFrame :=
  stale now (filtered_df start_date end_date df).

Definition run_recently_closed (start_date end_date now : Z) (df : DataFrame) : DataFrame :=
  recently_closed now (completed_items (filtered_df start_date end_date df)).

(** *** The label ranking

    [pd.Series(Counter(all_labels)).sort_values(ascending=False)].  The
    series lists the labels in the counter's order, that of first
    encounter.  The call leaves the sorting algorithm at the library's
    default (quicksort), which the library does not document as stable,
    so the script fixes the ranking only up to the order of labels with
    equal counts.  The ranking is therefore stated for a sorting
    function of which only this much is known: its result rearranges
    the series and is in descending order of count. *)
Definition descending (s : list (string * nat)) : Prop :=
  StronglySorted (fun a b => (snd b <= snd a)%nat) s.

Definition sorts_descending (sort : list (string * nat) -> list (string * nat)) : Prop :=
  forall s, Permutation s (sort s) /\ descending (sort s).

Section LabelCounts.
Variable sort_values : list (string * nat) -> list (string * nat).

(** [label_counts], empty when the script takes the branch that
    reports that there is no label data. *)
Definition label_counts (filtered : DataFrame) : list (string * nat) :=
  match all_labels filtered with
  | [] => []
  | _ :: _ => sort_values (Counter (all_labels filtered))
  end.
End LabelCounts.

(** Sorting by insertion stays within that description.  [before x y]
    decides whether the entry [x], which comes earlier in the series, is
    placed before [y]. *)
Section Insertion.
Variable before : string * nat -> string * nat -> bool.

Fixpoint insert (x : string * nat) (s : list (string * nat)) : list (string * nat) :=
  match s with
  | [] => [x]
  | y :: r => if before x y then x :: y :: r else y :: insert x r
  end.

Definition insertion_sort (s : list (string * nat)) : list (string * nat) :=
  fold_right insert [] s.
End Insertion.

(** Equal counts keep the order of the series (a stable sort). *)
Definition sort_values_stable : list (string * nat) -> list (string * nat) :=
  insertion_sort (fun x y => (snd y <=? snd x)%nat).

(** Some occurrence of [a] in [l] comes before an occurrence of [b]. *)
Fixpoint precedes {A : Type} (a b : A) (l : list A) : Prop :=
  match l with
  | [] => False
  | x :: r => (x = a /\ In b r) \/ precedes a b r
  end.

(** *** The rest of the page *)

(** [min_date] and [max_date], the bounds and the default value of the
    date range input, for a snapshot with at least one row. *)
Definition min_date (first : row) (rest : DataFrame) : Z :=
  dt_date (fold_right Z.min (created_at first) (map created_at rest)).

Definition max_date (first : row) (rest : DataFrame) : Z :=
  dt_date (fold_right Z.max (created_at first) (map created_at rest)).

(** [open_df] *)
Definition open_df (filtered : DataFrame) : DataFrame :=
  filter (fun r => negb (isin (status r) done_statuses)) filtered.

(** [series.isna() | (series.str.strip() == "")] on one cell; the
    comparison is false on a missing cell. *)
Definition isna_or_blank (x : option string) : bool :=
  match x with
  | None => true
  | Some s => false || String.eqb (PyStr.strip s) ""
  end.

(** [flagged]: [None] when the expression raises [AttributeError].  The
    [.str] accessor exists on a column that [read_csv] typed as text; on
    any other column (one without a filled cell, or one whose filled
    cells all read as numbers or as truth values) taking it raises.  The
    type of a column is fixed when the file is read and kept by the
    date filter: [labels_text] and [assignees_text] say whether the two
    columns of the frame are text. *)
Definition flagged (labels_text assignees_text : bool) (filtered : DataFrame)
  : option DataFrame :=
  if labels_text && assignees_text
  then Some (filter (fun r => isna_or_blank (labels r) || isna_or_blank (assignees r))
                    filtered)
  else None.

(** [label_counts.head(n)] *)
Definition head {A : Type} (n : nat) (s : list A) : list A := firstn n s.

(** *** The monthly trend

    [series.dt.to_period("M").astype(str)] names the calendar month of a
    timestamp, as in [2024-03]; these names sort like the months they
    name.  The name is taken below as a number [month_of ts] that grows
    with the month. *)
Section Trend.
Variable month_of : Z -> Z.

(** One more occurrence of [k] in a series of counts indexed by
    ascending key. *)
Fixpoint count_insert (k : Z) (s : list (Z * nat)) : list (Z * nat) :=
  match s with
  | [] => [(k, 1%nat)]
  | (k', n) :: r =>
      if k <? k' then (k, 1%nat) :: (k', n) :: r
      else if k =? k' then (k', S n) :: r
      else (k', n) :: count_insert k r
  end.

(** [column.value_counts().sort_index()] *)
Definition value_counts_sort_index (column : list Z) : list (Z * nat) :=
  fold_right count_insert [] column.

Definition created_per_month (filtered : DataFrame) : list (Z * nat) :=
  value_counts_sort_index (map (fun r => month_of (created_at r)) filtered).

Definition closed_per_month (filtered : DataFrame) : list (Z * nat) :=
  value_counts_sort_index (map (fun r => month_of (updated_at r)) (closed_df filtered)).

(** The value of a series at a key, NaN ([None]) where the key is not in
    its index. *)
Fixpoint series_get (k : Z) (s : list (Z * nat)) : option nat :=
  match s with
  | [] => None
  | (k', n) :: r => if k =? k' then Some n else series_get k r
  end.

(** A sorted index with one more key. *)
Fixpoint index_insert (k : Z) (idx : list Z) : list Z :=
  match idx with
  | [] => [k]
  | k' :: r =>
      if k <? k' then k :: k' :: r
      else if k =? k' then k' :: r
      else k' :: index_insert k r
  end.

(** The index of a frame built from two series: the sorted union. *)
Definition union_index (a b : list (Z * nat)) : list Z :=
  fold_right index_insert [] (map fst a ++ map fst b)%list.

(** [pd.DataFrame({"Created": created, "Closed": closed}).fillna(0)]:
    one row per month of the union, as (month, created, closed). *)
Definition trend_frame (created closed : list (Z * nat)) : list (Z * nat * nat) :=
  map (fun m => (m,
                 match series_get m created with Some n => n | None => 0%nat end,
                 match series_get m closed with Some n => n | None => 0%nat end))
      (union_index created closed).

Definition trend_df (filtered : DataFrame) : list (Z * nat * nat) :=
  trend_frame (created_per_month filtered) (closed_per_month filtered).
End Trend.

(** The number of [assignee_status] rows of one assignee in one bucket:
    a cell of the workload table. *)
Definition workload_cell (assignee bucket : string) (rows : list (string * string)) : nat :=
  List.length (filter (fun p => String.eqb (fst p) assignee && String.eqb (snd p) bucket)
                      rows).

(** The assignees the script reads from a row. *)
Definition assignee_tokens (r : row) : list string :=
  PyStr.tokens (py_str (assignees r)).

(** The total of a series of counts. *)
Definition counts_total {K : Type} (s : list (K * nat)) : nat :=
  fold_right (fun p acc => (snd p + acc)%nat) 0%nat s.

(** The value of a series at a key after [fillna(0)]. *)
Definition cell (k : Z) (s : list (Z * nat)) : nat :=
  match series_get k s with Some n => n | None => 0%nat end.

(** An index in ascending order, each key once. *)
Definition ascending (idx : list Z) : Prop := StronglySorted Z.lt idx.

(** 1 when the two keys are equal, 0 otherwise. *)
Definition indicator (x m : Z) : nat := if Z.eq_dec x m then 1%nat else 0%nat.

(** The calendar month of day number [day] (days since 1970-01-01, in
    the proleptic Gregorian calendar), as [year * 12 + month - 1]. *)
Definition month_of_day (day : Z) : Z :=
  let z := day + 719468 in
  let era := z / 146097 in
  let doe := z - era * 146097 in
  let yoe := (doe - doe / 1460 + doe / 36524 - doe / 146096) / 365 in
  let doy := doe - (365 * yoe + yoe / 4 - yoe / 100) in
  let mp := (5 * doy + 2) / 153 in
  let m := if mp <? 10 then mp + 3 else mp - 9 in
  let year := yoe + era * 400 + (if m <=? 2 then 1 else 0) in
  year * 12 + (m - 1).

(** [ts.to_period("M")] as that number. *)
Definition month_ordinal (ts : Z) : Z := month_of_day (dt_date ts).

End Dashboard.

(* ===================================================================== *)
(** ** fetch_github_project_items.py *)
(* ===================================================================== *)

Module Fetch.

#[local] Set Warnings "-register-all".

(** A decoded JSON document.  A dictionary keeps its keys in insertion
    order and holds each key once. *)
Inductive json : Type :=
| JNull
| JBool (b : bool)
| JNum (n : Z)
| JStr (s : string)
| JArr (l : list json)
| JObj (kv : list (string * json)).

(** The exceptions the script can raise.  [QueryFailed] is the
    [Exception] raised by [run_query]. *)
Inductive exn : Type :=
| KeyError (k : string)
| TypeError
| AttributeError
| JSONDecodeError
| QueryFailed (status_code : Z) (text : string).

Inductive result (A : Type) : Type :=
| Returns (a : A)
| Raises (e : exn).
Arguments Returns {A} a.
Arguments Raises {A} e.

Definition bind {A B : Type} (m : result A) (k : A -> result B) : result B :=
  match m with
  | Returns a => k a
  | Raises e => Raises e
  end.

Notation "x <- m ;; k" := (bind m (fun x => k))
  (at level 61, m at next level, right associativity).

(** *** Operations on Python values *)

Fixpoint lookup (k : string) (kv : list (string * json)) : option json :=
  match kv with
  | [] => None
  | (k', v) :: r => if String.eqb k k' then Some v else lookup k r
  end.

(** Truth value: [None], [False], [0], [""], [[]] and [{}] are false. *)
Definition truthy (v : json) : bool :=
  match v with
  | JNull => false
  | JBool b => b
  | JNum n => negb (n =? 0)
  | JStr s => PyStr.truthy s
  | JArr l => match l with [] => false | _ :: _ => true end
  | JObj kv => match kv with [] => false | _ :: _ => true end
  end.

(** [v[k]] with a string key. *)
Definition subscript (v : json) (k : string) : result json :=
  match v with
  | JObj kv => match lookup k kv with
               | Some x => Returns x
               | None => Raises (KeyError k)
               end
  | _ => Raises TypeError
  end.

(** [v.get(k, default)]; only a dictionary has the method. *)
Definition get (v : json) (k : string) (default : json) : result json :=
  match v with
  | JObj kv => match lookup k kv with
               | Some x => Returns x
               | None => Returns default
               end
  | _ => Raises AttributeError
  end.

(** [k in v] *)
Definition contains (k : string) (v : json) : result bool :=
  match v with
  | JObj kv => Returns (match lookup k kv with Some _ => true | None => false end)
  | JArr l => Returns (existsb (fun x => match x with
                                         | JStr s => String.eqb s k
                                         | _ => false
                                         end) l)
  | JStr s => Returns (match String.index 0 k s with Some _ => true | None => false end)
  | _ => Raises TypeError
  end.

(** The elements a [for] loop or a comprehension draws from [v]: the
    items of a list, the keys of a dictionary, the characters of a
    string. *)
Definition py_iter (v : json) : result (list json) :=
  match v with
  | JArr l => Returns l
  | JObj kv => Returns (map (fun p => JStr (fst p)) kv)
  | JStr s => Returns (map (fun c => JStr (String c EmptyString)) (list_ascii_of_string s))
  | _ => Raises TypeError
  end.

(** [v.lower()] *)
Definition lower (v : json) : result string :=
  match v with
  | JStr s => Returns (PyStr.lower s)
  | _ => Raises AttributeError
  end.

Fixpoint mapM {A B : Type} (f : A -> result B) (l : list A) : result (list B) :=
  match l with
  | [] => Returns []
  | x :: r => y <- f x ;; ys <- mapM f r ;; Returns (y :: ys)
  end.

(** [", ".join(l)]: every element has to be a string. *)
Definition join_comma (l : list json) : result string :=
  ss <- mapM (fun x => match x with
                       | JStr s => Returns s
                       | _ => Raises TypeError
                       end) l ;;
  Returns (PyStr.join ", " ss).

(** *** The flat record appended to [items] *)

Record item : Type := mkItem {
  title : json;
  number : json;
  url : json;
  assignees : string;
  labels : string;
  status : json;
  created_at : json;
  updated_at : json
}.

(** [", ".join([a[field] for a in content.get(key, {}).get("nodes", [])])
     if key in content else ""] *)
Definition joined (content : json) (key field : string) : result string :=
  present <- contains key content ;;
  if (present : bool) then
    conn <- get content key (JObj []) ;;
    nodes <- get conn "nodes" (JArr []) ;;
    elems <- py_iter nodes ;;
    names <- mapM (fun a => subscript a field) elems ;;
    join_comma names
  else Returns "".

(** The body of the loop over [node["fieldValues"]["nodes"]]. *)
Definition status_step (status fv : json) : result json :=
  if truthy fv then
    f <- get fv "field" (JObj []) ;;
    n <- get f "name" (JStr "") ;;
    l <- lower n ;;
    if String.eqb l "status" then get fv "name" JNull else Returns status
  else Returns status.

Fixpoint for_field_values (fvs : list json) (status : json) : result json :=
  match fvs with
  | [] => Returns status
  | fv :: r => s <- status_step status fv ;; for_field_values r s
  end.

(** The body of the loop over [nodes]: the record built from one node. *)
Definition normalize (node : json) : result item :=
  c <- subscript node "content" ;;
  let content := if truthy c then c else JObj [] in
  title <- get content "title" (JStr "(No title)") ;;
  number <- get content "number" JNull ;;
  url <- get content "url" JNull ;;
  assignees <- joined content "assignees" "login" ;;
  labels <- joined content "labels" "name" ;;
  node_created <- subscript node "createdAt" ;;
  created_at <- get content "createdAt" node_created ;;
  node_updated <- subscript node "updatedAt" ;;
  updated_at <- get content "updatedAt" node_updated ;;
  field_values <- subscript node "fieldValues" ;;
  fv_nodes <- subscript field_values "nodes" ;;
  fvs <- py_iter fv_nodes ;;
  status <- for_field_values fvs JNull ;;
  Returns (mkItem title number url assignees labels status created_at updated_at).

Fixpoint for_nodes (nodes : list json) (items : list item) : result (list item) :=
  match nodes with
  | [] => Returns items
  | node :: r => it <- normalize node ;; for_nodes r (items ++ [it])%list
  end.

(** *** The network *)

(** What [requests.post] hands back: the transport status, the raw
    text, and the decoded body when the text is a JSON document. *)
Record response : Type := mkResponse {
  status_code : Z;
  text : string;
  json_body : option json
}.

(** [run_query], given the reply of the endpoint to the request. *)
Definition run_query (resp : response) : result json :=
  if negb (status_code resp =? 200)
  then Raises (QueryFailed (status_code resp) (text resp))
  else match json_body resp with
       | Some data => Returns data
       | None => Raises JSONDecodeError
       end.

Definition page_items (data : json) : result json :=
  d <- subscript data "data" ;;
  n <- subscript d "node" ;;
  subscript n "items".

(** One turn of the [while True] loop once the reply has arrived: the
    grown [items] and, unless the loop breaks, the next cursor. *)
Definition loop_body (resp : response) (items : list item)
  : result (list item * option json) :=
  data <- run_query resp ;;
  its <- page_items data ;;
  nodes <- subscript its "nodes" ;;
  ns <- py_iter nodes ;;
  items' <- for_nodes ns items ;;
  its' <- page_items data ;;
  page_info <- subscript its' "pageInfo" ;;
  has_next <- subscript page_info "hasNextPage" ;;
  if negb (truthy has_next) then Returns (items', None)
  else
    cursor <- subscript page_info "endCursor" ;;
    Returns (items', Some cursor).

(** A run of [get_all_project_items]: the variables of the requests it
    sent, in order, and how it ended.  [None] is a run still waiting
    for a reply when the recorded replies are used up. *)
Record run : Type := mkRun {
  sent : list json;
  outcome : option (result (list item))
}.

Definition variables (project_id : string) (cursor : json) : json :=
  JObj [("projectId", JStr project_id); ("cursor", cursor)].

(** The loop, against the replies the endpoint gives to the successive
    requests. *)
Fixpoint while_true (project_id : string) (replies : list response)
         (cursor : json) (items : list item) (log : list json) : run :=
  match replies with
  | [] => mkRun (log ++ [variables project_id cursor])%list None
  | resp :: rest =>
      let log' := (log ++ [variables project_id cursor])%list in
      match loop_body resp items with
      | Raises e => mkRun log' (Some (Raises e))
      | Returns (items', None) => mkRun log' (Some (Returns items'))
      | Returns (items', Some cursor') =>
          while_true project_id rest cursor' items' log'
      end
  end.

Definition get_all_project_items (project_id : string) (replies : list response) : run :=
  while_true project_id replies JNull [] [].

(** *** The shape of the replies

    What the items query of the script asks for, as predicates on the
    decoded reply.  A field value that is not a single-select value
    comes back as [null] or as an empty object; a draft has a title and
    its two timestamps and nothing else; an item whose content cannot
    be read has [content: null]. *)

Definition is_string (v : json) : bool :=
  match v with JStr _ => true | _ => false end.

Definition absent_or (p : json -> bool) (k : string) (kv : list (string * json)) : bool :=
  match lookup k kv with
  | None => true
  | Some v => p v
  end.

Definition wf_field_value (fv : json) : bool :=
  match fv with
  | JNull => true
  | JObj kv =>
      absent_or (fun f => match f with
                          | JObj fkv => absent_or is_string "name" fkv
                          | _ => false
                          end) "field" kv
  | _ => false
  end.

(** An object with a string under [field]. *)
Definition has_string_member (field : string) (a : json) : bool :=
  match a with
  | JObj akv => match lookup field akv with
                | Some (JStr _) => true
                | _ => false
                end
  | _ => false
  end.

(** A connection [{nodes: [{field: "..."}, ...]}]. *)
Definition wf_connection (field : string) (conn : json) : bool :=
  match conn with
  | JObj ckv =>
      absent_or (fun ns => match ns with
                           | JArr l => forallb (has_string_member field) l
                           | _ => false
                           end) "nodes" ckv
  | _ => false
  end.

Definition wf_content (c : json) : bool :=
  match c with
  | JNull => true
  | JObj kv =>
      absent_or (wf_connection "login") "assignees" kv
      && absent_or (wf_connection "name") "labels" kv
      && absent_or is_string "createdAt" kv
      && absent_or is_string "updatedAt" kv
  | _ => false
  end.

Definition wf_node (node : json) : bool :=
  match node with
  | JObj kv =>
      match lookup "content" kv, lookup "createdAt" kv, lookup "updatedAt" kv,
            lookup "fieldValues" kv with
      | Some c, Some (JStr _), Some (JStr _), Some (JObj fkv) =>
          wf_content c
          && match lookup "nodes" fkv with
             | Some (JArr fvs) => forallb wf_field_value fvs
             | _ => false
             end
      | _, _, _, _ => false
      end
  | _ => false
  end.

(** The parts of a node the statements below speak about. *)
Definition member (v : json) (k : string) : json :=
  match v with
  | JObj kv => match lookup k kv with Some x => x | None => JNull end
  | _ => JNull
  end.

Definition has_key (v : json) (k : string) : bool :=
  match v with
  | JObj kv => match lookup k kv with Some _ => true | None => false end
  | _ => false
  end.

Definition field_values (node : json) : list json :=
  match member (member node "fieldValues") "nodes" with
  | JArr l => l
  | _ => []
  end.

(** The content is missing or a draft: none of the fields that only an
    issue or a pull request has. *)
Definition null_or_draft (content : json) : bool :=
  match content with
  | JNull => true
  | JObj _ =>
      negb (has_key content "number") && negb (has_key content "url")
      && negb (has_key content "assignees") && negb (has_key content "labels")
  | _ => false
  end.

(** Status extraction as the specification words it: the value of the
    last entry whose field is named "status" in any letter case, and
    [null] without such an entry. *)
Definition is_status_entry (fv : json) : bool :=
  match member (member fv "field") "name" with
  | JStr s => String.eqb (PyStr.lower s) "status"
  | _ => false
  end.

Definition last_status_entry (fvs : list json) : json :=
  last (map (fun fv => member fv "name") (filter is_status_entry fvs)) JNull.

(** One page of the listing as the endpoint sends it. *)
Definition page_body (nodes : list json) (has_next : bool) (end_cursor : json) : json :=
  JObj [("data",
         JObj [("node",
                JObj [("items",
                       JObj [("pageInfo",
                              JObj [("hasNextPage", JBool has_next);
                                    ("endCursor", end_cursor)]);
                             ("nodes", JArr nodes)])])])].

Definition page_response (nodes : list json) (has_next : bool) (end_cursor : json) : response :=
  mkResponse 200 "" (Some (page_body nodes has_next end_cursor)).

(** The dictionary the loop body reads the content fields from:
    [node["content"] or {}]. *)
Definition content_of (node : json) : json :=
  let c := member node "content" in if truthy c then c else JObj [].

(** The value under [k] when [content] is a dictionary that has the key,
    and [default] otherwise. *)
Definition field_or (content : json) (k : string) (default : json) : json :=
  match content with
  | JObj kv => match lookup k kv with Some v => v | None => default end
  | _ => default
  end.

(** The pages before the last: each has more to come. *)
Definition earlier_pages (pages : list (list json * json)) : list response :=
  map (fun p => page_response (fst p) true (snd p)) pages.

(** *** The project lookup and [main] *)

Definition ORG : string := "Shopify".
Definition PROJECT_NUMBER : Z := 10432.

(** The variables of the lookup request. *)
Definition lookup_variables (org : string) (number : Z) : json :=
  JObj [("org", JStr org); ("number", JNum number)].

(** [get_project_id], given the reply to its request. *)
Definition get_project_id (resp : response) : result json :=
  data <- run_query resp ;;
  d <- subscript data "data" ;;
  o <- subscript d "organization" ;;
  p <- subscript o "projectV2" ;;
  subscript p "id".

(** The items loop for a project id of any type, as [main] passes on
    whatever the lookup gave. *)
Definition variables_of (project_id cursor : json) : json :=
  JObj [("projectId", project_id); ("cursor", cursor)].

Fixpoint while_true_of (project_id : json) (replies : list response)
         (cursor : json) (items : list item) (log : list json) : run :=
  match replies with
  | [] => mkRun (log ++ [variables_of project_id cursor])%list None
  | resp :: rest =>
      let log' := (log ++ [variables_of project_id cursor])%list in
      match loop_body resp items with
      | Raises e => mkRun log' (Some (Raises e))
      | Returns (items', None) => mkRun log' (Some (Returns items'))
      | Returns (items', Some cursor') =>
          while_true_of project_id rest cursor' items' log'
      end
  end.

(** The network side of [main]: the lookup, then the items loop.  The
    outcome [Returns items] is the list the CSV file is written from. *)
Definition main (replies : list response) : run :=
  match replies with
  | [] => mkRun [lookup_variables ORG PROJECT_NUMBER] None
  | resp :: rest =>
      match get_project_id resp with
      | Raises e => mkRun [lookup_variables ORG PROJECT_NUMBER] (Some (Raises e))
      | Returns project_id =>
          while_true_of project_id rest JNull []
                        [lookup_variables ORG PROJECT_NUMBER]
      end
  end.

(** The reply to the lookup of a project that exists. *)
Definition project_response (project_id : json) : response :=
  mkResponse 200 ""
    (Some (JObj [("data",
                  JObj [("organization",
                         JObj [("projectV2", JObj [("id", project_id)])])])])).

(** The strings under [field] of the nodes of the connection [key] of a
    content, in order. *)
Definition connection_names (content : json) (key field : string) : list string :=
  match member (member content key) "nodes" with
  | JArr l => flat_map (fun a => match member a field with
                                 | JStr s => [s]
                                 | _ => []
                                 end) l
  | _ => []
  end.

End Fetch.

(* ===================================================================== *)
(** ** weekly_github_issue_report.py: the issue listing *)
(* ===================================================================== *)

Module IssueReport.
Import Fetch.

Definition PER_PAGE : nat := 100.

(** [len(v)] *)
Definition py_len (v : json) : result nat :=
  match v with
  | JArr l => Returns (List.length l)
  | JObj kv => Returns (List.length kv)
  | JStr s => Returns (String.length s)
  | _ => Raises TypeError
  end.

(** [[i for i in data if "pull_request" not in i]] *)
Fixpoint without_pull_requests (elems : list json) : result (list json) :=
  match elems with
  | [] => Returns []
  | i :: r =>
      is_pr <- contains "pull_request" i ;;
      kept <- without_pull_requests r ;;
      Returns (if (is_pr : bool) then kept else i :: kept)
  end.

(** One turn of the loop of [fetch_issues] once the reply has arrived:
    the grown list and whether the loop goes on.  The transport status
    is not looked at. *)
Definition issues_loop_body (resp : response) (issues : list json)
  : result (list json * bool) :=
  data <- match json_body resp with
          | Some d => Returns d
          | None => Raises JSONDecodeError
          end ;;
  if negb (truthy data) then Returns (issues, false)
  else
    has_message <- contains "message" data ;;
    if (has_message : bool) then Returns (issues, false)
    else
      elems <- py_iter data ;;
      kept <- without_pull_requests elems ;;
      n <- py_len data ;;
      Returns ((issues ++ kept)%list, negb (n <? PER_PAGE)%nat).

(** A run of [fetch_issues]: the page numbers asked for, and how it
    ended ([None]: still waiting for a reply). *)
Record issues_run : Type := mkIssuesRun {
  pages_asked : list Z;
  issues_outcome : option (result (list json))
}.

Fixpoint issues_loop (replies : list response) (page : Z) (issues : list json)
         (asked : list Z) : issues_run :=
  match replies with
  | [] => mkIssuesRun (asked ++ [page])%list None
  | resp :: rest =>
      let asked' := (asked ++ [page])%list in
      match issues_loop_body resp issues with
      | Raises e => mkIssuesRun asked' (Some (Raises e))
      | Returns (issues', false) => mkIssuesRun asked' (Some (Returns issues'))
      | Returns (issues', true) => issues_loop rest (page + 1) issues' asked'
      end
  end.

Definition fetch_issues (replies : list response) : issues_run :=
  issues_loop replies 1 [] [].

(** A page of the listing: a list of objects, one per issue or pull
    request. *)
Definition is_object (v : json) : bool :=
  match v with JObj _ => true | _ => false end.

Definition not_pull_request (v : json) : bool := negb (has_key v "pull_request").

(** A reply whose body is the page, whatever its transport status. *)
Definition listing_response (status : Z) (page : list json) : response :=
  mkResponse status "" (Some (JArr page)).

(** The body GitHub sends with an error: an object with a message. *)
Definition error_response (status : Z) (message : string) : response :=
  mkResponse status message (Some (JObj [("message", JStr message)])).

(** A page that makes the loop go on: objects only, [PER_PAGE] of them
    or more, sent with any transport status. *)
Definition full_page (p : Z * list json) : bool :=
  forallb is_object (snd p) && (PER_PAGE <=? List.length (snd p))%nat.

(** The page numbers [first], [first + 1], ... ([n] of them). *)
Definition page_numbers (first : Z) (n : nat) : list Z :=
  map (fun i => first + Z.of_nat i) (seq 0 n).

End IssueReport.

(* ===================================================================== *)
(** ** Sample replies *)
(* ===================================================================== *)

Module FetchSamples.
Import Fetch.

Definition single_select (field_name option_name : string) : json :=
  JObj [("name", JStr option_name); ("field", JObj [("name", JStr field_name)])].

(** A draft card with two entries for the status field, spelt in two
    ways, around an entry of another field. *)
Definition draft_node : json :=
  JObj [("id", JStr "PVTI_1");
        ("createdAt", JStr "2024-01-01T00:00:00Z");
        ("updatedAt", JStr "2024-01-02T00:00:00Z");
        ("content", JObj [("title", JStr "X");
                          ("createdAt", JStr "T1");
                          ("updatedAt", JStr "T2")]);
        ("fieldValues",
         JObj [("nodes", JArr [JObj []; JNull;
                               single_select "Status" "Todo";
                               single_select "Priority" "P1";
                               single_select "STATUS" "Done";
                               single_select "Size" "M"])])].

(** The draft of the specification's example: no field values. *)
Definition plain_draft_node : json :=
  JObj [("id", JStr "PVTI_2");
        ("createdAt", JStr "2024-01-01T00:00:00Z");
        ("updatedAt", JStr "2024-01-02T00:00:00Z");
        ("content", JObj [("title", JStr "X");
                          ("createdAt", JStr "T1");
                          ("updatedAt", JStr "T2")]);
        ("fieldValues", JObj [("nodes", JArr [])])].

(** An item whose content is not readable. *)
Definition redacted_node : json :=
  JObj [("id", JStr "PVTI_3");
        ("createdAt", JStr "2024-02-01T00:00:00Z");
        ("updatedAt", JStr "2024-02-03T00:00:00Z");
        ("content", JNull);
        ("fieldValues", JObj [("nodes", JArr [single_select "Status" "Done"])])].

Definition issue_node : json :=
  JObj [("id", JStr "PVTI_4");
        ("createdAt", JStr "2024-03-01T00:00:00Z");
        ("updatedAt", JStr "2024-03-02T00:00:00Z");
        ("content",
         JObj [("title", JStr "Refund rounding");
               ("number", JNum 17);
               ("url", JStr "https://example.test/17");
               ("assignees", JObj [("nodes", JArr [JObj [("login", JStr "alice")];
                                                   JObj [("login", JStr "bob")]])]);
               ("labels", JObj [("nodes", JArr [JObj [("name", JStr "bug")]])]);
               ("createdAt", JStr "2024-02-20T10:00:00Z");
               ("updatedAt", JStr "2024-03-02T09:30:00Z")]);
        ("fieldValues", JObj [("nodes", JArr [single_select "Status" "In progress"])])].

(** Three pages of 100, 100 and 37 items: the two that announce a next
    page, with their end cursors, and the last. *)
Definition first_two_pages : list (list json * json) :=
  [(repeat issue_node 100, JStr "Y3Vyc29yOjEwMA");
   (repeat draft_node 100, JStr "Y3Vyc29yOjIwMA")].

Definition last_page : list json := repeat redacted_node 37.

Definition bad_gateway : response := mkResponse 502 "Bad Gateway" None.

(** The members of an item without its own [createdAt], though its
    content has one. *)
Definition no_created_fields : list (string * json) :=
  [("id", JStr "PVTI_5");
   ("updatedAt", JStr "2024-01-02T00:00:00Z");
   ("content", JObj [("title", JStr "X");
                     ("createdAt", JStr "T1");
                     ("updatedAt", JStr "T2")]);
   ("fieldValues", JObj [("nodes", JArr [])])].

(** The reply to an items request for an id that names nothing. *)
Definition unknown_node_response : response :=
  mkResponse 200 ""
    (Some (JObj [("data", JObj [("node", JNull)]);
                 ("errors", JArr [JObj [("type", JStr "NOT_FOUND")]])])).

(** An issue and a pull request of the REST listing. *)
Definition rest_issue : json :=
  JObj [("number", JNum 7); ("title", JStr "Broken total"); ("state", JStr "open")].

Definition rest_pull_request : json :=
  JObj [("number", JNum 8); ("title", JStr "Fix total"); ("state", JStr "open");
        ("pull_request", JObj [("url", JStr "https://example.test/pulls/8")])].

(** A full page: 60 issues and 40 pull requests. *)
Definition rest_full_page : list json :=
  (repeat rest_issue 60 ++ repeat rest_pull_request 40)%list.

End FetchSamples.

(* ===================================================================== *)
(** ** Sample data *)
(* ===================================================================== *)

Module Samples.
Import Dashboard.

(** Midnight of day [n], in nanoseconds. *)
Definition day (n : Z) : Z := n * NS_PER_DAY.

(** Closed long after its creation on day 0, and updated on day 100. *)
Definition old_done : row :=
  mkRow "Ship invoices" (Some 1) (Some "https://example.test/1")
        (Some "alice") (Some "billing") (Some "Done") (day 0) (day 100).

(** Created on day 20 and never touched again. *)
Definition new_open : row :=
  mkRow "Draft roadmap" None None None None (Some "Todo") (day 20) (day 20).

(** A status spelt in lower case. *)
Definition lower_done : row :=
  mkRow "Rename module" (Some 2) (Some "https://example.test/2")
        (Some "alice, bob") (Some "cleanup") (Some "done") (day 3) (day 4).

(** Closed, with an update time two and a half days before its creation. *)
Definition backdated : row :=
  mkRow "Imported card" (Some 3) (Some "https://example.test/3")
        (Some "carol") None (Some "Closed") (day 10) (day 8 - NS_PER_DAY / 2).

(** Updated thirty days and twelve hours before day 131. *)
Definition half_day_over : row :=
  mkRow "Fix rounding" (Some 4) (Some "https://example.test/4")
        (Some "bob") (Some "bug") (Some "Done") (day 90) (day 100 + NS_PER_DAY / 2).

Definition board : DataFrame := [old_done; new_open].

(** One row whose label cell names two labels once each. *)
Definition two_labels : row :=
  mkRow "Tag me" None None None (Some "a, b") None (day 0) (day 0).

(** Two cards created in January 2024, one of them closed in February,
    and one card created in March. *)
Definition jan_open : row :=
  mkRow "Plan quarter" None None (Some "alice") (Some "planning") (Some "Todo")
        (day 19727) (day 19730).

Definition jan_done : row :=
  mkRow "Close books" None None (Some "bob") (Some "finance, billing") (Some "Done")
        (day 19742) (day 19763).

Definition mar_open : row :=
  mkRow "Audit access" None None (Some " ") (Some "security") (Some "In progress")
        (day 19784) (day 19784).

Definition quarter : DataFrame := [jan_open; jan_done; mar_open].

End Samples.

(* ===================================================================== *)
(** ** Properties of the string methods *)
(* ===================================================================== *)

Module PyStrFacts.
Import PyStr.

Lemma split_comma_not_nil (s : string) : split_comma s <> [].
Proof.
  induction s as [|c r IH]; simpl; [discriminate|].
  destruct (Ascii.eqb c ","%char); [discriminate|].
  destruct (split_comma r); [contradiction | discriminate].
Qed.

(** Joining the pieces with commas gives the string back. *)
Lemma join_split_comma (s : string) : join "," (split_comma s) = s.
Proof.
  induction s as [|c r IH]; [reflexivity|].
  pose proof (split_comma_not_nil r) as Hne. simpl.
  destruct (Ascii.eqb c ","%char) eqn:E.
  - apply Ascii.eqb_eq in E. subst c.
    destruct (split_comma r) as [|h t]; [contradiction|].
    change (join "," ("" :: h :: t)) with ("," ++ join "," (h :: t)).
    rewrite IH. reflexivity.
  - destruct (split_comma r) as [|h t]; [contradiction|].
    destruct t as [|h' t].
    + simpl in *. now rewrite IH.
    + change (join "," (String c h :: h' :: t))
        with (String c (h ++ "," ++ join "," (h' :: t))).
      change (join "," (h :: h' :: t)) with (h ++ "," ++ join "," (h' :: t)) in IH.
      now rewrite IH.
Qed.

(** No piece of the split contains a comma. *)
Lemma split_comma_no_comma (s piece : string) :
  In piece (split_comma s) ->
  ~ In ","%char (list_ascii_of_string piece).
Proof.
  revert piece. induction s as [|c r IH]; simpl; intros piece Hin.
  - destruct Hin as [<-|[]]. simpl. tauto.
  - destruct (Ascii.eqb c ","%char) eqn:E.
    + destruct Hin as [<-|Hin]; [simpl; tauto | now apply IH].
    + pose proof (split_comma_not_nil r) as Hne.
      destruct (split_comma r) as [|h t]; [contradiction|].
      destruct Hin as [<-|Hin].
      * simpl. intros [Hc|Hc].
        -- subst c. rewrite Ascii.eqb_refl in E. discriminate.
        -- revert Hc. apply IH. now left.
      * apply IH. now right.
Qed.

Lemma lstrip_head (s : string) :
  match lstrip s with
  | EmptyString => True
  | String c _ => isspace c = false
  end.
Proof.
  induction s as [|c r IH]; simpl; [exact I|].
  destruct (isspace c) eqn:E; [exact IH | exact E].
Qed.

Lemma rstrip_idempotent (s : string) : rstrip (rstrip s) = rstrip s.
Proof.
  induction s as [|c r IH]; simpl; [reflexivity|].
  destruct (isspace c && negb (truthy (rstrip r))) eqn:E; [reflexivity|].
  simpl. rewrite IH, E. reflexivity.
Qed.

Lemma lstrip_fixed (s : string) :
  match s with
  | EmptyString => True
  | String c _ => isspace c = false
  end ->
  lstrip s = s.
Proof. destruct s as [|c r]; simpl; [reflexivity | now intros ->]. Qed.

(** A stripped string has nothing left to strip. *)
Lemma strip_idempotent (s : string) : strip (strip s) = strip s.
Proof.
  unfold strip. pose proof (lstrip_head s) as Hh.
  assert (Hfix : lstrip (rstrip (lstrip s)) = rstrip (lstrip s)).
  { apply lstrip_fixed. destruct (lstrip s) as [|c r]; simpl; [exact I|].
    rewrite Hh. simpl. exact Hh. }
  rewrite Hfix. apply rstrip_idempotent.
Qed.

(** Every token is trimmed and not empty. *)
Lemma tokens_trimmed (s t : string) :
  In t (tokens s) -> t <> "" /\ strip t = t.
Proof.
  unfold tokens. rewrite in_map_iff. intros (a & <- & Ha).
  apply filter_In in Ha. destruct Ha as [_ Ha]. split.
  - intros E. rewrite E in Ha. discriminate.
  - apply strip_idempotent.
Qed.

End PyStrFacts.

(* ===================================================================== *)
(** ** Properties of the dashboard metrics *)
(* ===================================================================== *)

Module DashboardFacts.
Import Dashboard.

Lemma NS_PER_DAY_pos : 0 < NS_PER_DAY.
Proof. reflexivity. Qed.

(** Membership in the done set is equality with one of its two strings. *)
Lemma isin_done_statuses (st : option string) :
  isin st done_statuses = true <-> st = Some "Done" \/ st = Some "Closed".
Proof.
  destruct st as [s|]; simpl.
  - rewrite !orb_true_iff, !String.eqb_eq. split.
    + intros [H|[H|H]]; [left|right|discriminate]; now subst.
    + intros [H|H]; inversion H; auto.
  - split; [discriminate | intros [H|H]; discriminate].
Qed.

Lemma isin_done_statuses_false (st : option string) :
  st <> Some "Done" -> st <> Some "Closed" -> isin st done_statuses = false.
Proof.
  intros H1 H2. destruct (isin st done_statuses) eqn:E; [|reflexivity].
  apply isin_done_statuses in E. tauto.
Qed.

(** A whole-day count of at most [n] is a delta below [n + 1] days. *)
Lemma dt_days_le (td n : Z) :
  dt_days td <= n <-> td < (n + 1) * NS_PER_DAY.
Proof.
  unfold dt_days. pose proof NS_PER_DAY_pos as Hp. split; intros H.
  - destruct (Z_lt_le_dec td ((n + 1) * NS_PER_DAY)) as [|Hge]; [assumption|].
    rewrite Z.mul_comm in Hge.
    apply (Z.div_le_lower_bound td NS_PER_DAY (n + 1) Hp) in Hge. lia.
  - assert (td / NS_PER_DAY < n + 1); [|lia].
    apply Z.div_lt_upper_bound; lia.
Qed.

Lemma dt_days_gt (td n : Z) :
  dt_days td > n <-> (n + 1) * NS_PER_DAY <= td.
Proof. pose proof (dt_days_le td n). lia. Qed.

Lemma dt_days_negative (td : Z) : td < 0 -> dt_days td < 0.
Proof.
  intros H. pose proof (dt_days_le td (-1)). simpl in H0. lia.
Qed.

Lemma in_filtered_df (s e : Z) (df : DataFrame) (r : row) :
  In r (filtered_df s e df) <->
  In r df /\ s <= dt_date (created_at r) <= e.
Proof.
  unfold filtered_df, mask. rewrite filter_In, andb_true_iff.
  rewrite Z.geb_le, Z.leb_le. tauto.
Qed.

Lemma in_completed_items (filtered : DataFrame) (r : row) :
  In r (completed_items filtered) <->
  In r filtered /\ (status r = Some "Done" \/ status r = Some "Closed").
Proof.
  unfold completed_items. rewrite filter_In, isin_done_statuses. tauto.
Qed.

Lemma in_stale (now : Z) (filtered : DataFrame) (r : row) :
  In r (stale now filtered) <->
  In r filtered /\ isin (status r) done_statuses = false
  /\ 31 * NS_PER_DAY <= now - updated_at r.
Proof.
  unfold stale. rewrite filter_In, andb_true_iff, negb_true_iff.
  rewrite Z.gtb_gt, dt_days_gt. simpl (30 + 1). tauto.
Qed.

Lemma in_recently_closed (now : Z) (completed : DataFrame) (r : row) :
  In r (recently_closed now completed) <->
  In r completed /\ now - updated_at r < 31 * NS_PER_DAY.
Proof.
  unfold recently_closed. rewrite filter_In, Z.leb_le, dt_days_le.
  simpl (30 + 1). tauto.
Qed.

(** *** The recently closed list *)

(** C1, as the specification states it, fails: on the board of two cards
    with the date range from day 10 to day 20 and the clock at day 101,
    the card closed one day ago has a status of the done set and lies in
    the full snapshot, yet it is not listed, since it was created before
    the range. *)
Lemma recently_closed_unfiltered_fails :
  ~ (forall r : row,
        In r (run_recently_closed 10 20 (Samples.day 101) Samples.board) <->
        In r Samples.board
        /\ isin (status r) done_statuses = true
        /\ Samples.day 101 - updated_at r <= 30 * NS_PER_DAY).
Proof.
  intros H. destruct (H Samples.old_done) as [_ Hback].
  assert (Hin : In Samples.old_done
                   (run_recently_closed 10 20 (Samples.day 101) Samples.board)).
  { apply Hback. repeat split.
    - simpl. auto.
    - vm_compute. discriminate. }
  vm_compute in Hin. exact Hin.
Qed.

(** C1, amended: the recently closed list holds exactly the rows of the
    snapshot that pass the date filter on their creation date, have a
    status of the done set, and whose age since the last update, counted
    in whole days rounded down, is at most 30, that is an age below 31
    days. *)
Theorem recently_closed_within_date_filter
  (start_date end_date now : Z) (df : DataFrame) (r : row) :
  In r (run_recently_closed start_date end_date now df) <->
  In r df
  /\ start_date <= dt_date (created_at r) <= end_date
  /\ (status r = Some "Done" \/ status r = Some "Closed")
  /\ now - updated_at r < 31 * NS_PER_DAY.
Proof.
  unfold run_recently_closed.
  rewrite in_recently_closed, in_completed_items, in_filtered_df. tauto.
Qed.

(** The whole-day count lets a row through whose age is above thirty
    days by less than a day. *)
Lemma recently_closed_rounds_down :
  run_recently_closed 90 90 (Samples.day 131) [Samples.half_day_over]
  = [Samples.half_day_over]
  /\ Samples.day 131 - updated_at Samples.half_day_over > 30 * NS_PER_DAY.
Proof. split; reflexivity. Qed.

(** *** Stale against recently closed *)

(** C7: in one pass (one date range, one reading of the clock) a row of
    the stale list is not in the recently closed list. *)
Theorem stale_not_recently_closed
  (start_date end_date now : Z) (df : DataFrame) (r : row) :
  In r (run_stale start_date end_date now df) ->
  ~ In r (run_recently_closed start_date end_date now df).
Proof.
  unfold run_stale, run_recently_closed. intros Hs Hr.
  apply in_stale in Hs. destruct Hs as (_ & Hopen & _).
  apply in_recently_closed in Hr. destruct Hr as [Hc _].
  apply filter_In in Hc. destruct Hc as [_ Hdone].
  congruence.
Qed.

Lemma stale_not_recently_closed_witness :
  In Samples.new_open (run_stale 10 20 (Samples.day 101) Samples.board)
  /\ ~ In Samples.new_open
          (run_recently_closed 10 20 (Samples.day 101) Samples.board).
Proof.
  assert (H : In Samples.new_open
                 (run_stale 10 20 (Samples.day 101) Samples.board)).
  { vm_compute. left. reflexivity. }
  split; [exact H | exact (stale_not_recently_closed _ _ _ _ _ H)].
Defined.

(** *** Completion rate *)

Lemma completed_items_length (filtered : DataFrame) :
  (List.length (completed_items filtered) <= List.length filtered)%nat.
Proof. apply filter_length_le. Qed.

(** C5: the completion rate of the empty selection is exactly 0; of any
    other selection it is the number of completed rows over the number
    of rows, times 100, a value between 0 and 100; and the completed
    rows are exactly the rows whose status is "Done" or "Closed". *)
Theorem completion_rate_spec :
  completion_rate [] = 0%Q
  /\ (forall (r : row) (rest : DataFrame),
         completion_rate (r :: rest)
         = (inject_Z (Z.of_nat (List.length (completed_items (r :: rest))))
            / inject_Z (Z.of_nat (List.length (r :: rest))) * 100)%Q)
  /\ (forall (filtered : DataFrame) (r : row),
         In r (completed_items filtered) <->
         In r filtered /\ (status r = Some "Done" \/ status r = Some "Closed"))
  /\ (forall filtered : DataFrame,
         (0 <= completion_rate filtered <= 100)%Q).
Proof.
  split; [reflexivity|]. split; [reflexivity|]. split.
  - apply in_completed_items.
  - intros filtered. unfold completion_rate, total_items.
    pose proof (completed_items_length filtered) as Hle.
    destruct (Z.of_nat (List.length filtered) >? 0) eqn:E; [|split; discriminate].
    apply Z.gtb_gt in E.
    set (c := inject_Z (Z.of_nat (List.length (completed_items filtered)))) in *.
    set (t := inject_Z (Z.of_nat (List.length filtered))) in *.
    assert (Hc : (0 <= c)%Q) by (unfold c; rewrite <- (Zle_Qle 0); lia).
    assert (Ht : (0 < t)%Q) by (unfold t; rewrite <- (Zlt_Qlt 0); lia).
    assert (Hct : (c <= t)%Q) by (unfold c, t; rewrite <- Zle_Qle; lia).
    assert (H0 : (0 <= c / t)%Q) by (apply Qle_shift_div_l; [exact Ht | lra]).
    assert (H1 : (c / t <= 1)%Q) by (apply Qle_shift_div_r; [exact Ht | lra]).
    split; lra.
Qed.

(** *** Exact matching of the done set *)

(** C9: a row whose status is neither "Done" nor "Closed", letter for
    letter, is in no completed selection (the one behind completion rate,
    completion days and the recently closed list, and the one behind the
    closed trend), and each of its assignee rows is in the "Open"
    bucket. *)
Theorem done_set_is_exact (r : row) :
  status r <> Some "Done" ->
  status r <> Some "Closed" ->
  (forall filtered : DataFrame,
      ~ In r (completed_items filtered) /\ ~ In r (closed_df filtered))
  /\ (forall (start_date end_date now : Z) (df : DataFrame),
         ~ In r (run_recently_closed start_date end_date now df))
  /\ assignee_rows r
     = map (fun a => (a, "Open")) (PyStr.tokens (py_str (assignees r))).
Proof.
  intros H1 H2. pose proof (isin_done_statuses_false _ H1 H2) as Hf.
  assert (Hc : forall filtered, ~ In r (completed_items filtered)).
  { intros filtered Hin. apply filter_In in Hin. destruct Hin. congruence. }
  repeat split.
  - apply Hc.
  - apply (Hc filtered).
  - intros s e now df Hin. apply in_recently_closed in Hin.
    destruct Hin as [Hin _]. exact (Hc _ Hin).
  - unfold assignee_rows. rewrite Hf. reflexivity.
Qed.

Lemma done_set_is_exact_witness :
  status Samples.lower_done = Some "done"
  /\ ~ In Samples.lower_done (completed_items [Samples.lower_done])
  /\ assignee_rows Samples.lower_done = [("alice", "Open"); ("bob", "Open")].
Proof.
  assert (H1 : status Samples.lower_done <> Some "Done") by (simpl; discriminate).
  assert (H2 : status Samples.lower_done <> Some "Closed") by (simpl; discriminate).
  destruct (done_set_is_exact Samples.lower_done H1 H2) as (Hc & _ & Hrows).
  split; [reflexivity|]. split.
  - apply (Hc [Samples.lower_done]).
  - exact Hrows.
Defined.

(** A missing status is outside the done set as well. *)
Lemma missing_status_is_open (r : row) :
  status r = None ->
  isin (status r) done_statuses = false
  /\ assignee_rows r
     = map (fun a => (a, "Open")) (PyStr.tokens (py_str (assignees r))).
Proof.
  intros H. unfold assignee_rows. rewrite H. split; reflexivity.
Qed.

(** *** Completion days *)

Lemma sum_app (l1 l2 : list Z) :
  fold_right Z.add 0 (l1 ++ l2) = fold_right Z.add 0 l1 + fold_right Z.add 0 l2.
Proof. induction l1 as [|x l1 IH]; simpl; [reflexivity | rewrite IH; lia]. Qed.

(** C10: a completed row whose update time is strictly before its
    creation time stays in the completed selection, its completion days
    are a negative number, and that number is one of the terms of the
    sum the mean is taken of: nothing rejects the row or replaces the
    value by zero. *)
Theorem negative_completion_days_counted (filtered : DataFrame) (r : row) :
  In r filtered ->
  isin (status r) done_statuses = true ->
  updated_at r < created_at r ->
  completion_days r < 0
  /\ exists before after : DataFrame,
       completed_items filtered = (before ++ r :: after)%list
       /\ avg_completion filtered
          = Some (inject_Z (fold_right Z.add 0%Z (map completion_days before)
                            + completion_days r
                            + fold_right Z.add 0%Z (map completion_days after))%Z
                  / inject_Z (Z.of_nat (S (List.length before + List.length after))))%Q.
Proof.
  intros Hin Hdone Hlt. split.
  - unfold completion_days. apply dt_days_negative. lia.
  - assert (Hc : In r (completed_items filtered)).
    { unfold completed_items. apply filter_In. split; assumption. }
    destruct (in_split _ _ Hc) as (before & after & Heq).
    exists before, after. split; [exact Heq|].
    unfold avg_completion, mean. rewrite Heq.
    destruct (before ++ r :: after)%list eqn:E.
    + destruct before; discriminate.
    + rewrite <- E. rewrite map_app, sum_app, length_app.
      cbn [map fold_right List.length].
      rewrite !length_map, Nat.add_succ_r, Z.add_assoc. reflexivity.
Qed.

Lemma negative_completion_days_counted_witness :
  completion_days Samples.backdated = -3
  /\ avg_completion [Samples.old_done; Samples.backdated]
     = Some (inject_Z (100 + -3 + 0)%Z / inject_Z 2)%Q.
Proof.
  assert (Hin : In Samples.backdated [Samples.old_done; Samples.backdated])
    by (simpl; auto).
  assert (Hdone : isin (status Samples.backdated) done_statuses = true)
    by reflexivity.
  assert (Hlt : updated_at Samples.backdated < created_at Samples.backdated)
    by reflexivity.
  destruct (negative_completion_days_counted _ _ Hin Hdone Hlt)
    as (_ & before & after & Heq & Havg).
  split; [reflexivity|].
  change (completed_items [Samples.old_done; Samples.backdated])
    with [Samples.old_done; Samples.backdated] in Heq.
  destruct before as [|x [|y before]].
  - injection Heq as Hx _. vm_compute in Hx. discriminate Hx.
  - injection Heq as Hx Ha. subst x after. exact Havg.
  - injection Heq as _ _ Hnil. destruct before; discriminate Hnil.
Defined.

(** *** The label ranking *)

Lemma counter_get_add (k k' : string) (c : list (string * nat)) :
  counter_get k (counter_add k' c)
  = if String.eqb k k' then S (counter_get k c) else counter_get k c.
Proof.
  induction c as [|[k0 n] r IH]; simpl.
  - reflexivity.
  - destruct (String.eqb k' k0) eqn:E0; simpl.
    + apply String.eqb_eq in E0. subst k0.
      destruct (String.eqb k k'); reflexivity.
    + destruct (String.eqb k k0) eqn:E1.
      * apply String.eqb_eq in E1. subst k0.
        rewrite String.eqb_sym, E0. reflexivity.
      * exact IH.
Qed.

Lemma counter_add_keys (k' : string) (c : list (string * nat)) (k : string) :
  In k (map fst (counter_add k' c)) <-> k = k' \/ In k (map fst c).
Proof.
  induction c as [|[k0 n] r IH]; simpl.
  - intuition.
  - destruct (String.eqb k' k0) eqn:E0; simpl.
    + apply String.eqb_eq in E0. subst k0. intuition.
    + rewrite IH. intuition.
Qed.

Lemma counter_add_ok (k : string) (c : list (string * nat)) :
  counter_ok c -> counter_ok (counter_add k c).
Proof.
  unfold counter_ok. induction c as [|[k0 n] r IH]; simpl; intros [Hnd Hpos].
  - split; repeat constructor. simpl. tauto.
  - inversion Hnd as [|? ? Hnotin Hnd']; subst.
    inversion Hpos as [|? ? Hn Hpos']; subst.
    destruct (String.eqb k k0) eqn:E0; simpl.
    + split; constructor; simpl; auto.
    + destruct (IH (conj Hnd' Hpos')) as [IH1 IH2].
      split; constructor; auto.
      rewrite counter_add_keys. intros [->|Hin]; [|contradiction].
      rewrite String.eqb_refl in E0. discriminate.
Qed.

Lemma counter_ok_in (c : list (string * nat)) (k : string) (n : nat) :
  counter_ok c ->
  (In (k, n) c <-> n = counter_get k c /\ (0 < n)%nat).
Proof.
  unfold counter_ok. induction c as [|[k0 n0] r IH]; simpl; intros [Hnd Hpos].
  - split; [tauto | lia].
  - inversion Hnd as [|? ? Hnotin Hnd']; subst.
    inversion Hpos as [|? ? Hn Hpos']; subst. simpl in Hn.
    specialize (IH (conj Hnd' Hpos')).
    destruct (String.eqb k k0) eqn:E0.
    + apply String.eqb_eq in E0. subst k0. split.
      * intros [H|H]; [inversion H; subst; auto|].
        exfalso. apply Hnotin. apply in_map_iff. now exists (k, n).
      * intros [-> _]. now left.
    + rewrite <- IH. split; [|tauto].
      intros [H|H]; [|exact H]. inversion H; subst.
      rewrite String.eqb_refl in E0. discriminate.
Qed.

Lemma Counter_fold (xs : list string) (c : list (string * nat)) :
  counter_ok c ->
  counter_ok (fold_left (fun c k => counter_add k c) xs c)
  /\ forall k, counter_get k (fold_left (fun c k => counter_add k c) xs c)
               = (count_occ string_dec xs k + counter_get k c)%nat.
Proof.
  revert c. induction xs as [|x xs IH]; simpl; intros c Hc.
  - split; [exact Hc | reflexivity].
  - destruct (IH (counter_add x c) (counter_add_ok x c Hc)) as [Hok Hget].
    split; [exact Hok|]. intros k. rewrite Hget, counter_get_add.
    destruct (string_dec x k) as [->|Hne].
    + rewrite String.eqb_refl. lia.
    + destruct (String.eqb k x) eqn:E; [|reflexivity].
      apply String.eqb_eq in E. congruence.
Qed.

Lemma counter_add_keys_order (k : string) (c : list (string * nat)) :
  map fst (counter_add k c)
  = if existsb (String.eqb k) (map fst c) then map fst c
    else (map fst c ++ [k])%list.
Proof.
  induction c as [|[k0 n] r IH]; simpl; [reflexivity|].
  destruct (String.eqb k k0); simpl; [reflexivity|].
  rewrite IH. now destruct (existsb (String.eqb k) (map fst r)).
Qed.

Lemma Counter_fold_keys (xs : list string) (c : list (string * nat)) :
  map fst (fold_left (fun c k => counter_add k c) xs c)
  = fold_left (fun seen x => if existsb (String.eqb x) seen then seen
                             else (seen ++ [x])%list) xs (map fst c).
Proof.
  revert c. induction xs as [|x xs IH]; intros c; simpl; [reflexivity|].
  rewrite IH, counter_add_keys_order. reflexivity.
Qed.

(** The keys of the counter are in the order of first encounter. *)
Lemma Counter_keys_order (xs : list string) :
  map fst (Counter xs) = first_encounters xs.
Proof. apply Counter_fold_keys. Qed.

(** The counter holds each list element once, with its number of
    occurrences. *)
Lemma Counter_spec (xs : list string) :
  counter_ok (Counter xs)
  /\ forall k n, In (k, n) (Counter xs)
                 <-> n = count_occ string_dec xs k /\ (0 < n)%nat.
Proof.
  assert (H0 : counter_ok []) by (split; constructor).
  destruct (Counter_fold xs [] H0) as [Hok Hget]. split; [exact Hok|].
  intros k n. unfold Counter. rewrite (counter_ok_in _ k n Hok), Hget.
  simpl. rewrite Nat.add_0_r. tauto.
Qed.

Section InsertionFacts.
Variable before : string * nat -> string * nat -> bool.
Hypothesis before_true : forall x y, before x y = true -> (snd y <= snd x)%nat.
Hypothesis before_false : forall x y, before x y = false -> (snd x <= snd y)%nat.

Lemma insert_perm (x : string * nat) (s : list (string * nat)) :
  Permutation (x :: s) (insert before x s).
Proof.
  induction s as [|y r IH]; simpl; [reflexivity|].
  destruct (before x y); [reflexivity|].
  rewrite perm_swap. now apply perm_skip.
Qed.

Lemma insert_descending (x : string * nat) (s : list (string * nat)) :
  descending s -> descending (insert before x s).
Proof.
  unfold descending. induction s as [|y r IH]; simpl; intros Hs.
  - repeat constructor.
  - inversion Hs as [|? ? Hr Hall]; subst.
    destruct (before x y) eqn:E.
    + constructor; [exact Hs|]. constructor; [now apply before_true|].
      apply before_true in E. eapply Forall_impl; [|exact Hall].
      simpl. intros z Hz. lia.
    + constructor; [now apply IH|].
      apply (Permutation_Forall (insert_perm x r)).
      constructor; [now apply before_false | exact Hall].
Qed.

Lemma insertion_sort_sorts : sorts_descending (insertion_sort before).
Proof.
  intros s. unfold insertion_sort. induction s as [|x r [IHp IHd]]; simpl.
  - split; [reflexivity | constructor].
  - split.
    + rewrite <- insert_perm. now apply perm_skip.
    + now apply insert_descending.
Qed.
End InsertionFacts.

Lemma sort_values_stable_sorts : sorts_descending sort_values_stable.
Proof.
  apply insertion_sort_sorts; intros x y H.
  - apply Nat.leb_le in H. exact H.
  - apply Nat.leb_gt in H. lia.
Qed.

Lemma label_counts_perm
  (sort : list (string * nat) -> list (string * nat)) (filtered : DataFrame) :
  sorts_descending sort ->
  Permutation (Counter (all_labels filtered)) (label_counts sort filtered).
Proof.
  intros Hsort. unfold label_counts.
  destruct (all_labels filtered) eqn:E; [reflexivity|]. apply Hsort.
Qed.

(** Whatever descending sort the library applies, the ranking lists
    every label that occurs among the trimmed, non-empty, comma-separated
    tokens of the label cells exactly once, with its number of
    occurrences, in descending order of count.  The order among labels
    with equal counts is the library's and is not settled here. *)
Theorem label_ranking_descending
  (sort : list (string * nat) -> list (string * nat)) (filtered : DataFrame) :
  sorts_descending sort ->
  (forall (l : string) (n : nat),
      In (l, n) (label_counts sort filtered) <->
      n = count_occ string_dec (all_labels filtered) l /\ (0 < n)%nat)
  /\ NoDup (map fst (label_counts sort filtered))
  /\ descending (label_counts sort filtered)
  /\ all_labels filtered
     = flat_map (fun r => PyStr.tokens (fillna (labels r))) filtered
  /\ (forall l : string,
         In l (all_labels filtered) -> l <> "" /\ PyStr.strip l = l).
Proof.
  intros Hsort. pose proof (label_counts_perm sort filtered Hsort) as Hperm.
  destruct (Counter_spec (all_labels filtered)) as [[Hnd _] Hin].
  split; [|split; [|split; [|split]]].
  - intros l n. rewrite <- Hin. split; apply Permutation_in;
      [apply Permutation_sym|]; exact Hperm.
  - apply (Permutation_NoDup (Permutation_map fst Hperm) Hnd).
  - unfold label_counts. destruct (all_labels filtered); [constructor|].
    apply Hsort.
  - unfold all_labels. now rewrite flat_map_concat_map, map_map,
      <- flat_map_concat_map.
  - intros l H. unfold all_labels in H. apply in_flat_map in H.
    destruct H as (c & _ & H). now apply PyStrFacts.tokens_trimmed in H.
Qed.

Lemma label_ranking_descending_witness :
  sorts_descending sort_values_stable
  /\ descending (label_counts sort_values_stable
                   [Samples.two_labels; Samples.old_done; Samples.two_labels])
  /\ In ("b", 2%nat)
        (label_counts sort_values_stable
           [Samples.two_labels; Samples.old_done; Samples.two_labels]).
Proof.
  destruct (label_ranking_descending sort_values_stable
              [Samples.two_labels; Samples.old_done; Samples.two_labels]
              sort_values_stable_sorts) as (Hin & _ & Hdesc & _).
  split; [exact sort_values_stable_sorts|]. split; [exact Hdesc|].
  apply Hin. split; [reflexivity | auto].
Defined.

(** With a sort that is stable the order of first encounter does decide
    between equal counts. *)
Lemma in_insert
  (before : string * nat -> string * nat -> bool)
  (x b : string * nat) (s : list (string * nat)) :
  In b s -> In b (insert before x s).
Proof.
  induction s as [|y r IH]; simpl; [tauto|].
  intros H. destruct (before x y); simpl; [now right|].
  destruct H as [H|H]; [now left | right; now apply IH].
Qed.

Lemma precedes_insert_other
  (before : string * nat -> string * nat -> bool)
  (x a b : string * nat) (s : list (string * nat)) :
  precedes a b s -> precedes a b (insert before x s).
Proof.
  induction s as [|y r IH]; simpl; [tauto|].
  intros H. destruct (before x y); simpl; [now right|].
  destruct H as [[-> Hin]|H].
  - left. split; [reflexivity|].
    now apply in_insert.
  - right. now apply IH.
Qed.

Lemma precedes_insert_stable (x b : string * nat) (s : list (string * nat)) :
  In b s -> (snd b <= snd x)%nat ->
  precedes x b (insert (fun x y => (snd y <=? snd x)%nat) x s).
Proof.
  induction s as [|y r IH]; simpl; [tauto|]. intros Hin Hle.
  destruct (snd y <=? snd x)%nat eqn:E; simpl.
  - left. split; [reflexivity | exact Hin].
  - right. destruct Hin as [->|Hin].
    + apply Nat.leb_gt in E. lia.
    + now apply IH.
Qed.

Lemma sort_values_stable_keeps_ties (a b : string * nat) (s : list (string * nat)) :
  snd a = snd b ->
  precedes a b s -> precedes a b (sort_values_stable s).
Proof.
  intros Heq. unfold sort_values_stable, insertion_sort.
  induction s as [|x r IH]; simpl; [tauto|].
  intros [[-> Hin]|H].
  - apply precedes_insert_stable; [|lia].
    apply (Permutation_in _ (proj1 (sort_values_stable_sorts r)) Hin).
  - apply precedes_insert_other. now apply IH.
Qed.

Lemma label_ranking_stable_sort_keeps_ties
  (filtered : DataFrame) (a b : string) (n : nat) :
  precedes (a, n) (b, n) (Counter (all_labels filtered)) ->
  precedes (a, n) (b, n) (label_counts sort_values_stable filtered).
Proof.
  unfold label_counts. destruct (all_labels filtered) eqn:E.
  - simpl. tauto.
  - now apply sort_values_stable_keeps_ties.
Qed.

End DashboardFacts.

(* ===================================================================== *)
(** ** Properties of the extraction *)
(* ===================================================================== *)

Module FetchFacts.
Import Fetch.

(** *** Normalisation of one node *)

Lemma last_cons {A} (a d : A) (l : list A) : last (a :: l) d = last l a.
Proof.
  revert a d. induction l as [|b l IH]; intros a d; [reflexivity|].
  change (last (a :: b :: l) d) with (last (b :: l) d).
  now rewrite !IH.
Qed.

(** One turn of the scan keeps the status or replaces it by the entry's
    option name. *)
Lemma status_step_wf (status fv : json) :
  wf_field_value fv = true ->
  status_step status fv
  = Returns (if is_status_entry fv then member fv "name" else status).
Proof.
  intros Hwf. destruct fv as [| | | | |kv]; try discriminate; [reflexivity|].
  destruct kv as [|p kv']; [reflexivity|].
  unfold status_step, is_status_entry.
  change (truthy (JObj (p :: kv'))) with true. cbv iota.
  remember (p :: kv') as kv. clear Heqkv.
  unfold wf_field_value, absent_or in Hwf.
  unfold member, get, bind, lower.
  destruct (lookup "field" kv) as [f|]; [|reflexivity].
  destruct f as [| | | | |fkv]; try discriminate.
  destruct (lookup "name" fkv) as [n|]; [|reflexivity].
  destruct n as [| | |s| |]; try discriminate.
  destruct (String.eqb (PyStr.lower s) "status"); [|reflexivity].
  destruct (lookup "name" kv); reflexivity.
Qed.

(** The scan ends with the option name of the last status entry. *)
Lemma for_field_values_wf (fvs : list json) (status : json) :
  forallb wf_field_value fvs = true ->
  for_field_values fvs status
  = Returns (last (map (fun fv => member fv "name") (filter is_status_entry fvs)) status).
Proof.
  revert status. induction fvs as [|fv r IH]; intros status Hwf; [reflexivity|].
  simpl in Hwf. apply andb_true_iff in Hwf. destruct Hwf as [Hfv Hr].
  cbn [for_field_values filter]. rewrite (status_step_wf _ _ Hfv).
  cbn [bind]. rewrite (IH _ Hr).
  destruct (is_status_entry fv); [|reflexivity].
  cbn [map]. now rewrite last_cons.
Qed.

(** The comprehension over the nodes of a connection gives strings. *)
Lemma names_wf (field : string) (l : list json) :
  forallb (has_string_member field) l = true ->
  exists ss, mapM (fun a => subscript a field) l = Returns (map JStr ss).
Proof.
  induction l as [|a r IH]; intros H.
  - exists []. reflexivity.
  - simpl in H. apply andb_true_iff in H. destruct H as [Ha Hr].
    destruct (IH Hr) as [ss Hss].
    unfold has_string_member in Ha.
    destruct a as [| | | | |akv]; try discriminate.
    destruct (lookup field akv) as [v|] eqn:E; [|discriminate].
    destruct v as [| | |s| |]; try discriminate.
    exists (s :: ss). cbn [mapM]. unfold subscript at 1. rewrite E.
    cbn [bind]. rewrite Hss. reflexivity.
Qed.

Lemma join_comma_strings (ss : list string) :
  join_comma (map JStr ss) = Returns (PyStr.join ", " ss).
Proof.
  unfold join_comma.
  assert (H : mapM (fun x => match x with JStr s => Returns s | _ => Raises TypeError end)
                   (map JStr ss) = Returns ss).
  { induction ss as [|s r IH]; [reflexivity|]. cbn [map mapM bind]. now rewrite IH. }
  now rewrite H.
Qed.

(** The assignee and label cells. *)
Lemma joined_absent (kv : list (string * json)) (key field : string) :
  lookup key kv = None -> joined (JObj kv) key field = Returns "".
Proof. intros H. unfold joined, contains. now rewrite H. Qed.

Lemma joined_wf (kv : list (string * json)) (key field : string) :
  absent_or (wf_connection field) key kv = true ->
  exists s, joined (JObj kv) key field = Returns s.
Proof.
  unfold absent_or. intros H.
  destruct (lookup key kv) as [conn|] eqn:E.
  - unfold joined, contains, get at 1. rewrite E. cbn [bind].
    destruct conn as [| | | | |ckv]; try discriminate.
    unfold wf_connection, absent_or in H. unfold get.
    destruct (lookup "nodes" ckv) as [ns|].
    + destruct ns as [| | | |l|]; try discriminate.
      cbn [bind py_iter]. destruct (names_wf field l H) as [ss Hss].
      rewrite Hss. cbn [bind]. rewrite join_comma_strings. now eexists.
    + exists "". reflexivity.
  - exists "". now apply joined_absent.
Qed.

Lemma content_of_dict (node : json) :
  wf_content (member node "content") = true ->
  exists kv, content_of node = JObj kv /\ wf_content (JObj kv) = true.
Proof.
  unfold content_of. intros H.
  destruct (member node "content") as [| | | | |kv]; try discriminate.
  - exists []. split; reflexivity.
  - destruct kv as [|p kv]; [exists []; split; reflexivity|].
    exists (p :: kv). split; [reflexivity | exact H].
Qed.

(** What [wf_node] says, piece by piece. *)
Lemma wf_node_inv (node : json) :
  wf_node node = true ->
  exists (kv fkv : list (string * json)) (c : json) (sc su : string)
         (fvs : list json),
    node = JObj kv
    /\ lookup "content" kv = Some c
    /\ wf_content c = true
    /\ lookup "createdAt" kv = Some (JStr sc)
    /\ lookup "updatedAt" kv = Some (JStr su)
    /\ lookup "fieldValues" kv = Some (JObj fkv)
    /\ lookup "nodes" fkv = Some (JArr fvs)
    /\ forallb wf_field_value fvs = true.
Proof.
  intros Hwf. destruct node as [| | | | |kv]; try discriminate.
  unfold wf_node in Hwf.
  destruct (lookup "content" kv) as [c|] eqn:Ec; [|discriminate].
  destruct (lookup "createdAt" kv) as [nc|] eqn:Ecr; [|discriminate].
  destruct nc as [| | |sc| |]; try discriminate.
  destruct (lookup "updatedAt" kv) as [nu|] eqn:Eup; [|discriminate].
  destruct nu as [| | |su| |]; try discriminate.
  destruct (lookup "fieldValues" kv) as [fv|] eqn:Efv; [|discriminate].
  destruct fv as [| | | | |fkv]; try discriminate.
  apply andb_true_iff in Hwf. destruct Hwf as [Hc Hfvs].
  destruct (lookup "nodes" fkv) as [fvs|] eqn:En; [|discriminate].
  destruct fvs as [| | | |fvs|]; try discriminate.
  exists kv, fkv, c, sc, su, fvs. repeat split; assumption || reflexivity.
Qed.

(** A node of the expected shape always gives a record, field by field
    as follows. *)
Lemma normalize_wf (node : json) :
  wf_node node = true ->
  exists a l : string,
    joined (content_of node) "assignees" "login" = Returns a
    /\ joined (content_of node) "labels" "name" = Returns l
    /\ normalize node
       = Returns (mkItem (field_or (content_of node) "title" (JStr "(No title)"))
                         (field_or (content_of node) "number" JNull)
                         (field_or (content_of node) "url" JNull)
                         a l
                         (last_status_entry (field_values node))
                         (field_or (content_of node) "createdAt" (member node "createdAt"))
                         (field_or (content_of node) "updatedAt" (member node "updatedAt"))).
Proof.
  intros Hwf.
  destruct (wf_node_inv node Hwf)
    as (kv & fkv & c & sc & su & fvs & -> & Ec & Hc & Ecr & Eup & Efv & En & Hfvs).
  assert (Hm : member (JObj kv) "content" = c) by (unfold member; now rewrite Ec).
  destruct (content_of_dict (JObj kv)) as (ckv & Hco & Hcwf);
    [now rewrite Hm|].
  assert (Hco' : (if truthy c then c else JObj []) = JObj ckv).
  { unfold content_of in Hco. now rewrite Hm in Hco. }
  simpl in Hcwf. rewrite !andb_true_iff in Hcwf.
  destruct Hcwf as [[[Ha Hl] _] _].
  destruct (joined_wf ckv "assignees" "login" Ha) as [a Hja].
  destruct (joined_wf ckv "labels" "name" Hl) as [l Hjl].
  exists a, l. rewrite Hco. split; [exact Hja|]. split; [exact Hjl|].
  pose proof (for_field_values_wf fvs JNull Hfvs) as Hfor.
  unfold field_values, last_status_entry, field_or, member.
  rewrite Efv, En, Ecr, Eup.
  unfold normalize, subscript, get, bind, py_iter.
  repeat (cbv beta iota zeta;
          first [ rewrite Ec | rewrite Hco' | rewrite Hja | rewrite Hjl
                | rewrite Ecr | rewrite Eup | rewrite Efv | rewrite En
                | rewrite Hfor
                | match goal with
                  | |- context [lookup ?k ckv] => destruct (lookup k ckv)
                  end ]);
    reflexivity.
Qed.

Lemma field_or_content_of (node : json) (k : string) (default : json) :
  field_or (content_of node) k default
  = field_or (member node "content") k default.
Proof.
  unfold content_of.
  destruct (member node "content") as [|b|n|s|l|kv]; try reflexivity.
  - destruct b; reflexivity.
  - simpl. destruct (n =? 0)%Z; reflexivity.
  - destruct s; reflexivity.
  - destruct l; reflexivity.
  - destruct kv; reflexivity.
Qed.

Lemma last_status_entry_none (fvs : list json) :
  (forall fv, In fv fvs -> is_status_entry fv = false) ->
  last_status_entry fvs = JNull.
Proof.
  intros H. unfold last_status_entry.
  replace (filter is_status_entry fvs) with (@nil json); [reflexivity|].
  symmetry. induction fvs as [|fv r IH]; [reflexivity|]. simpl.
  rewrite (H fv (or_introl eq_refl)). apply IH.
  intros x Hx. apply H. now right.
Qed.

Lemma last_status_entry_last (before after : list json) (fv : json) :
  is_status_entry fv = true ->
  (forall x, In x after -> is_status_entry x = false) ->
  last_status_entry (before ++ fv :: after) = member fv "name".
Proof.
  intros Hfv Hafter. unfold last_status_entry.
  rewrite filter_app. simpl. rewrite Hfv.
  replace (filter is_status_entry after) with (@nil json).
  - rewrite map_app. simpl. apply last_last.
  - symmetry. induction after as [|x r IH]; [reflexivity|]. simpl.
    rewrite (Hafter x (or_introl eq_refl)). apply IH.
    intros y Hy. apply Hafter. now right.
Qed.

(** *** Status extraction *)

(** C3: for a node of the shape the query returns, the record is built
    and its status is the option name of the last field value whose
    field is named "status" in any letter case, whatever entries for the
    status field come before it; without such a field value the status
    is [null]. *)
Theorem status_is_last_status_entry (node : json) :
  wf_node node = true ->
  exists it : item,
    normalize node = Returns it
    /\ ((forall fv, In fv (field_values node) -> is_status_entry fv = false) ->
        status it = JNull)
    /\ (forall (before after : list json) (fv : json),
           field_values node = (before ++ fv :: after)%list ->
           is_status_entry fv = true ->
           (forall x, In x after -> is_status_entry x = false) ->
           status it = member fv "name").
Proof.
  intros Hwf. destruct (normalize_wf node Hwf) as (a & l & _ & _ & Hn).
  eexists. split; [exact Hn|]. simpl. split.
  - apply last_status_entry_none.
  - intros before after fv -> Hfv Hafter.
    now apply last_status_entry_last.
Qed.

Lemma status_is_last_status_entry_witness :
  wf_node FetchSamples.draft_node = true
  /\ exists it : item,
       normalize FetchSamples.draft_node = Returns it
       /\ status it = JStr "Done".
Proof.
  assert (Hwf : wf_node FetchSamples.draft_node = true) by reflexivity.
  split; [exact Hwf|].
  destruct (status_is_last_status_entry FetchSamples.draft_node Hwf)
    as (it & Hn & _ & Hlast).
  exists it. split; [exact Hn|].
  apply (Hlast [JObj []; JNull;
                FetchSamples.single_select "Status" "Todo";
                FetchSamples.single_select "Priority" "P1"]
               [FetchSamples.single_select "Size" "M"]
               (FetchSamples.single_select "STATUS" "Done")).
  - reflexivity.
  - reflexivity.
  - intros x [<-|[]]. reflexivity.
Defined.

(** *** Missing and draft content *)

(** C4: for a node of the shape the query returns whose content is
    [null] or a draft, the record is built without an exception: the
    title is the content's, or "(No title)" without one; number and url
    are [null]; the assignee and label cells are empty; each timestamp is
    the content's when the content has one and the item's own otherwise,
    so both are strings. *)
Theorem null_or_draft_defaults (node : json) :
  wf_node node = true ->
  null_or_draft (member node "content") = true ->
  exists it : item,
    normalize node = Returns it
    /\ title it = field_or (member node "content") "title" (JStr "(No title)")
    /\ number it = JNull
    /\ url it = JNull
    /\ assignees it = ""
    /\ labels it = ""
    /\ created_at it
       = field_or (member node "content") "createdAt" (member node "createdAt")
    /\ updated_at it
       = field_or (member node "content") "updatedAt" (member node "updatedAt")
    /\ is_string (created_at it) = true
    /\ is_string (updated_at it) = true.
Proof.
  intros Hwf Hnd. destruct (normalize_wf node Hwf) as (a & l & Ha & Hl & Hn).
  rewrite !field_or_content_of in Hn.
  destruct (wf_node_inv node Hwf)
    as (kv & fkv & c & sc & su & fvs & -> & Ec & Hc & Ecr & Eup & _).
  assert (Hm : member (JObj kv) "content" = c) by (unfold member; now rewrite Ec).
  assert (Hmc : member (JObj kv) "createdAt" = JStr sc)
    by (unfold member; now rewrite Ecr).
  assert (Hmu : member (JObj kv) "updatedAt" = JStr su)
    by (unfold member; now rewrite Eup).
  unfold content_of in Ha, Hl. rewrite Hm, Hmc, Hmu in *.
  eexists. split; [exact Hn|]. cbn [title number url assignees labels
                                   created_at updated_at].
  destruct c as [| | | | |ckv]; try discriminate.
  - (* content: null *)
    cbn in Ha, Hl. injection Ha as <-. injection Hl as <-.
    repeat split; reflexivity.
  - (* content: a draft *)
    unfold null_or_draft, has_key in Hnd.
    destruct (lookup "number" ckv) eqn:En; [discriminate|].
    destruct (lookup "url" ckv) eqn:Eu; [discriminate|].
    destruct (lookup "assignees" ckv) eqn:Eas; [discriminate|].
    destruct (lookup "labels" ckv) eqn:El; [discriminate|].
    assert (Ha' : joined (JObj ckv) "assignees" "login" = Returns "")
      by now apply joined_absent.
    assert (Hl' : joined (JObj ckv) "labels" "name" = Returns "")
      by now apply joined_absent.
    destruct ckv as [|p ckv'].
    + cbn in Ha, Hl. injection Ha as <-. injection Hl as <-.
      repeat split; reflexivity.
    + remember (p :: ckv') as ckv eqn:Hckv.
      assert (Ht : truthy (JObj ckv) = true) by (subst ckv; reflexivity).
      rewrite Ht in Ha, Hl. rewrite Ha' in Ha. rewrite Hl' in Hl.
      injection Ha as <-. injection Hl as <-.
      unfold wf_content, absent_or in Hc. rewrite !andb_true_iff in Hc.
      destruct Hc as [[_ Hcc] Hcu].
      unfold field_or. rewrite En, Eu.
      destruct (lookup "createdAt" ckv) as [vc|], (lookup "updatedAt" ckv) as [vu|];
        repeat split; try reflexivity; assumption.
Qed.

Lemma null_or_draft_defaults_witness :
  wf_node FetchSamples.plain_draft_node = true
  /\ null_or_draft (member FetchSamples.plain_draft_node "content") = true
  /\ exists it : item,
       normalize FetchSamples.plain_draft_node = Returns it
       /\ title it = JStr "X"
       /\ number it = JNull /\ url it = JNull
       /\ assignees it = "" /\ labels it = ""
       /\ created_at it = JStr "T1" /\ updated_at it = JStr "T2".
Proof.
  assert (Hwf : wf_node FetchSamples.plain_draft_node = true) by reflexivity.
  assert (Hnd : null_or_draft (member FetchSamples.plain_draft_node "content") = true)
    by reflexivity.
  split; [exact Hwf|]. split; [exact Hnd|].
  destruct (null_or_draft_defaults FetchSamples.plain_draft_node Hwf Hnd)
    as (it & Hn & Ht & Hnum & Hurl & Ha & Hl & Hc & Hu & _).
  exists it. repeat split; assumption.
Defined.

(** The same with [content: null]: the item's own timestamps are used. *)
Lemma null_content_defaults :
  normalize FetchSamples.redacted_node
  = Returns (mkItem (JStr "(No title)") JNull JNull "" "" (JStr "Done")
                    (JStr "2024-02-01T00:00:00Z") (JStr "2024-02-03T00:00:00Z")).
Proof. reflexivity. Qed.

(** *** Pagination *)

Lemma for_nodes_wf (nodes : list json) :
  forallb wf_node nodes = true ->
  exists its : list item,
    Forall2 (fun node it => normalize node = Returns it) nodes its
    /\ forall items, for_nodes nodes items = Returns (items ++ its)%list.
Proof.
  induction nodes as [|node r IH]; intros H.
  - exists []. split; [constructor|]. intros items. simpl.
    now rewrite app_nil_r.
  - simpl in H. apply andb_true_iff in H. destruct H as [Hn Hr].
    destruct (IH Hr) as (its & Hall & Hfor).
    destruct (normalize_wf node Hn) as (a & l & _ & _ & Hnorm).
    eexists (_ :: its). split.
    + constructor; [exact Hnorm | exact Hall].
    + intros items. cbn [for_nodes]. rewrite Hnorm. cbn [bind].
      rewrite Hfor, <- app_assoc. reflexivity.
Qed.

Lemma loop_body_page
  (nodes : list json) (has_next : bool) (end_cursor : json)
  (its items : list item) :
  (forall items, for_nodes nodes items = Returns (items ++ its)%list) ->
  loop_body (page_response nodes has_next end_cursor) items
  = Returns ((items ++ its)%list, if has_next then Some end_cursor else None).
Proof.
  intros Hfor. unfold loop_body, page_response, run_query.
  cbn [status_code json_body Z.eqb Pos.eqb negb bind].
  change (page_items (page_body nodes has_next end_cursor))
    with (Returns (JObj [("pageInfo",
                          JObj [("hasNextPage", JBool has_next);
                                ("endCursor", end_cursor)]);
                         ("nodes", JArr nodes)])).
  cbn [bind].
  change (subscript (JObj [("pageInfo",
                            JObj [("hasNextPage", JBool has_next);
                                  ("endCursor", end_cursor)]);
                           ("nodes", JArr nodes)]) "nodes")
    with (Returns (JArr nodes)).
  cbn [bind py_iter]. rewrite Hfor. cbn [bind].
  change (subscript (JObj [("pageInfo",
                            JObj [("hasNextPage", JBool has_next);
                                  ("endCursor", end_cursor)]);
                           ("nodes", JArr nodes)]) "pageInfo")
    with (Returns (JObj [("hasNextPage", JBool has_next);
                         ("endCursor", end_cursor)])).
  cbn [bind].
  change (subscript (JObj [("hasNextPage", JBool has_next);
                           ("endCursor", end_cursor)]) "hasNextPage")
    with (Returns (JBool has_next)).
  cbn [bind truthy]. destruct has_next; reflexivity.
Qed.

(** A reply with a transport status other than 200 ends the run with the
    exception of [run_query], whatever was gathered so far. *)
Lemma loop_body_failed (resp : response) (items : list item) :
  status_code resp <> 200 ->
  loop_body resp items = Raises (QueryFailed (status_code resp) (text resp)).
Proof.
  intros H. unfold loop_body, run_query.
  apply Z.eqb_neq in H. rewrite H. reflexivity.
Qed.

(** The loop walks through the pages that announce a next page, asking
    for each with the end cursor of the one before. *)
Lemma while_true_earlier_pages
  (project_id : string) (pages : list (list json * json)) (rest : list response) :
  forallb (forallb wf_node) (map fst pages) = true ->
  exists its : list item,
    Forall2 (fun node it => normalize node = Returns it)
            (List.concat (map fst pages)) its
    /\ forall (cursor : json) (items : list item) (log : list json),
         while_true project_id (earlier_pages pages ++ rest) cursor items log
         = while_true project_id rest
             (last (map snd pages) cursor) (items ++ its)
             (log ++ map (variables project_id)
                         (removelast (cursor :: map snd pages))).
Proof.
  induction pages as [|[nodes c] pages IH]; intros H.
  - exists []. split; [constructor|]. intros cursor items log.
    simpl. now rewrite !app_nil_r.
  - simpl in H. apply andb_true_iff in H. destruct H as [Hn Hr].
    destruct (for_nodes_wf nodes Hn) as (its1 & Hall1 & Hfor1).
    destruct (IH Hr) as (its2 & Hall2 & Hloop).
    exists (its1 ++ its2)%list. split.
    + simpl. now apply Forall2_app.
    + intros cursor items log.
      cbn [earlier_pages map app while_true fst snd].
      rewrite (loop_body_page nodes true c its1 items Hfor1).
      fold (earlier_pages pages). rewrite Hloop, last_cons.
      change (removelast (cursor :: c :: map snd pages))
        with (cursor :: removelast (c :: map snd pages)).
      cbn [map]. now rewrite <- !app_assoc.
Qed.

(** C6: when every page but the last announces a next page and the last
    one does not, the run ends after one request per page (the first
    with a [null] cursor, each further one with the end cursor of the
    page before), without asking for more, and returns the records of
    all nodes, page after page and in the order of each page; their
    number is the sum of the page sizes. *)
Theorem pages_assembled_in_order
  (project_id : string) (earlier : list (list json * json))
  (final_nodes : list json) (final_cursor : json) (extra : list response) :
  forallb (forallb wf_node) (map fst earlier ++ [final_nodes]) = true ->
  exists snapshot : list item,
    outcome (get_all_project_items project_id
               (earlier_pages earlier
                ++ page_response final_nodes false final_cursor :: extra))
    = Some (Returns snapshot)
    /\ Forall2 (fun node it => normalize node = Returns it)
               (List.concat (map fst earlier ++ [final_nodes])) snapshot
    /\ List.length snapshot
       = list_sum (map (@List.length json) (map fst earlier ++ [final_nodes]))
    /\ sent (get_all_project_items project_id
                (earlier_pages earlier
                 ++ page_response final_nodes false final_cursor :: extra))
       = map (variables project_id) (JNull :: map snd earlier).
Proof.
  intros H. rewrite forallb_app in H. apply andb_true_iff in H.
  destruct H as [He Hf]. simpl in Hf. rewrite andb_true_r in Hf.
  destruct (while_true_earlier_pages project_id earlier
              (page_response final_nodes false final_cursor :: extra) He)
    as (its1 & Hall1 & Hloop).
  destruct (for_nodes_wf final_nodes Hf) as (its2 & Hall2 & Hfor2).
  exists (its1 ++ its2)%list.
  assert (Hall : Forall2 (fun node it => normalize node = Returns it)
                   (List.concat (map fst earlier ++ [final_nodes]))
                   (its1 ++ its2)%list).
  { rewrite concat_app. simpl. rewrite app_nil_r. now apply Forall2_app. }
  unfold get_all_project_items. rewrite Hloop. cbn [while_true].
  rewrite (loop_body_page final_nodes false final_cursor its2 _ Hfor2).
  cbn [outcome sent]. repeat split.
  - exact Hall.
  - rewrite <- (Forall2_length Hall). clear.
    induction (map fst earlier ++ [final_nodes])%list as [|p r IH];
      [reflexivity|].
    simpl. rewrite length_app, IH. reflexivity.
  - rewrite <- (last_cons JNull JNull (map snd earlier)).
    change [variables project_id (last (JNull :: map snd earlier) JNull)]
      with (map (variables project_id) [last (JNull :: map snd earlier) JNull]).
    rewrite app_nil_l, <- map_app, <- app_removelast_last; [reflexivity|].
    discriminate.
Qed.

Lemma pages_assembled_in_order_witness :
  exists snapshot : list item,
    outcome (get_all_project_items "PVT_kwDOA"
               (earlier_pages FetchSamples.first_two_pages
                ++ [page_response FetchSamples.last_page false JNull]))
    = Some (Returns snapshot)
    /\ List.length snapshot = 237%nat
    /\ sent (get_all_project_items "PVT_kwDOA"
                (earlier_pages FetchSamples.first_two_pages
                 ++ [page_response FetchSamples.last_page false JNull]))
       = [variables "PVT_kwDOA" JNull;
          variables "PVT_kwDOA" (JStr "Y3Vyc29yOjEwMA");
          variables "PVT_kwDOA" (JStr "Y3Vyc29yOjIwMA")].
Proof.
  assert (Hwf : forallb (forallb wf_node)
                  (map fst FetchSamples.first_two_pages ++ [FetchSamples.last_page])
                = true) by (vm_compute; reflexivity).
  destruct (pages_assembled_in_order "PVT_kwDOA" FetchSamples.first_two_pages
              FetchSamples.last_page JNull [] Hwf)
    as (snapshot & Hout & _ & Hlen & Hsent).
  exists snapshot. split; [exact Hout|]. split; [exact Hlen | exact Hsent].
Defined.

(** *** Transport failures *)

(** C8: a reply with a transport status other than 200 makes [run_query]
    raise; raised in any turn of the loop, whatever records were
    gathered before, the exception is how the run ends; in particular
    after any number of good pages the caller gets the exception and no
    list of records. *)
Theorem transport_failure_aborts
  (project_id : string) (earlier : list (list json * json))
  (bad : response) (extra : list response) :
  forallb (forallb wf_node) (map fst earlier) = true ->
  status_code bad <> 200 ->
  run_query bad = Raises (QueryFailed (status_code bad) (text bad))
  /\ (forall (cursor : json) (items : list item) (log : list json),
         outcome (while_true project_id (bad :: extra) cursor items log)
         = Some (Raises (QueryFailed (status_code bad) (text bad))))
  /\ outcome (get_all_project_items project_id
                (earlier_pages earlier ++ bad :: extra))
     = Some (Raises (QueryFailed (status_code bad) (text bad))).
Proof.
  intros Hwf Hbad.
  assert (Hturn : forall cursor items log,
             outcome (while_true project_id (bad :: extra) cursor items log)
             = Some (Raises (QueryFailed (status_code bad) (text bad)))).
  { intros cursor items log. cbn [while_true].
    now rewrite (loop_body_failed bad items Hbad). }
  split; [|split].
  - unfold run_query. apply Z.eqb_neq in Hbad. now rewrite Hbad.
  - exact Hturn.
  - destruct (while_true_earlier_pages project_id earlier (bad :: extra) Hwf)
      as (its & _ & Hloop).
    unfold get_all_project_items. rewrite Hloop. apply Hturn.
Qed.

Lemma transport_failure_aborts_witness :
  status_code FetchSamples.bad_gateway <> 200
  /\ outcome (get_all_project_items "PVT_kwDOA"
                (earlier_pages FetchSamples.first_two_pages
                 ++ [FetchSamples.bad_gateway;
                     page_response FetchSamples.last_page false JNull]))
     = Some (Raises (QueryFailed 502 "Bad Gateway")).
Proof.
  assert (Hwf : forallb (forallb wf_node) (map fst FetchSamples.first_two_pages) = true)
    by (vm_compute; reflexivity).
  assert (Hbad : status_code FetchSamples.bad_gateway <> 200)
    by (simpl; discriminate).
  split; [exact Hbad|].
  exact (proj2 (proj2 (transport_failure_aborts "PVT_kwDOA"
                         FetchSamples.first_two_pages FetchSamples.bad_gateway
                         [page_response FetchSamples.last_page false JNull]
                         Hwf Hbad))).
Defined.

End FetchFacts.

(* ===================================================================== *)
(** ** More on the string methods *)
(* ===================================================================== *)

Module PyStrMore.
Import PyStr PyStrFacts.

Lemma lstrip_empty (s : string) :
  lstrip s = "" -> all_chars isspace s = true.
Proof.
  unfold all_chars. induction s as [|c r IH]; simpl; [reflexivity|].
  destruct (isspace c); [exact IH | discriminate].
Qed.

Lemma rstrip_nonspace (c : ascii) (r : string) :
  isspace c = false -> rstrip (String c r) = String c (rstrip r).
Proof. intros H. simpl. now rewrite H. Qed.

(** A string that strips to nothing is made of whitespace. *)
Lemma strip_empty (s : string) :
  strip s = "" -> all_chars isspace s = true.
Proof.
  unfold strip. intros H. apply lstrip_empty.
  pose proof (lstrip_head s) as Hh.
  destruct (lstrip s) as [|c r]; [reflexivity|].
  rewrite (rstrip_nonspace c r Hh) in H. discriminate.
Qed.

Lemma split_comma_single (s : string) :
  no_comma s = true ->
  split_comma s = [s].
Proof.
  unfold no_comma, all_chars. induction s as [|c r IH]; simpl; [reflexivity|].
  intros H. apply andb_true_iff in H. destruct H as [Hc Hr].
  apply negb_true_iff in Hc. rewrite Hc, (IH Hr). reflexivity.
Qed.

Lemma all_chars_impl (p q : ascii -> bool) (s : string) :
  (forall c, p c = true -> q c = true) ->
  all_chars p s = true -> all_chars q s = true.
Proof.
  unfold all_chars. intros Hpq H. rewrite forallb_forall in *.
  intros c Hc. apply Hpq. now apply H.
Qed.

Lemma isspace_not_comma (c : ascii) :
  isspace c = true -> negb (Ascii.eqb c ","%char) = true.
Proof.
  intros H. destruct (Ascii.eqb c ","%char) eqn:E; [|reflexivity].
  apply Ascii.eqb_eq in E. subst c. discriminate H.
Qed.

(** A blank string has no token. *)
Lemma tokens_blank (s : string) : strip s = "" -> tokens s = [].
Proof.
  intros H. unfold tokens.
  rewrite (split_comma_single s).
  - simpl. now rewrite H.
  - apply (all_chars_impl isspace); [exact isspace_not_comma|].
    now apply strip_empty.
Qed.









End PyStrMore.

(* ===================================================================== *)
(** ** More on the dashboard *)
(* ===================================================================== *)

Module DashboardMore.
Import Dashboard DashboardFacts.

Lemma dt_date_ge (ts n : Z) : n <= dt_date ts <-> n * NS_PER_DAY <= ts.
Proof.
  pose proof (dt_days_le ts (n - 1)) as H. unfold dt_days in H.
  unfold dt_date. replace (n - 1 + 1) with n in H by lia. lia.
Qed.

Lemma dt_date_le (ts n : Z) : dt_date ts <= n <-> ts < (n + 1) * NS_PER_DAY.
Proof. apply dt_days_le. Qed.

(** X1: the date filter keeps exactly the rows created from midnight of
    the start date up to, and not including, midnight after the end
    date: both ends of the range are whole days and belong to it. *)
Theorem date_filter_whole_days (start_date end_date : Z) (df : DataFrame) (r : row) :
  In r (filtered_df start_date end_date df) <->
  In r df
  /\ start_date * NS_PER_DAY <= created_at r < (end_date + 1) * NS_PER_DAY.
Proof.
  rewrite in_filtered_df, dt_date_ge, dt_date_le. tauto.
Qed.

Lemma filter_all {A} (f : A -> bool) (l : list A) :
  (forall x, In x l -> f x = true) -> filter f l = l.
Proof.
  induction l as [|x l IH]; intros H; [reflexivity|]. simpl.
  rewrite (H x (or_introl eq_refl)). f_equal. apply IH.
  intros y Hy. apply H. now right.
Qed.

Lemma fold_min_le (a : Z) (l : list Z) (x : Z) :
  x = a \/ In x l -> fold_right Z.min a l <= x.
Proof.
  induction l as [|y l IH]; simpl.
  - intros [->|[]]. lia.
  - intros [H|[H|H]].
    + specialize (IH (or_introl H)). lia.
    + subst. lia.
    + specialize (IH (or_intror H)). lia.
Qed.

Lemma fold_max_ge (a : Z) (l : list Z) (x : Z) :
  x = a \/ In x l -> x <= fold_right Z.max a l.
Proof.
  induction l as [|y l IH]; simpl.
  - intros [->|[]]. lia.
  - intros [H|[H|H]].
    + specialize (IH (or_introl H)). lia.
    + subst. lia.
    + specialize (IH (or_intror H)). lia.
Qed.

(** X2: with the range the page starts with, from the date of the
    earliest creation to the date of the latest, the filter keeps every
    row of the snapshot, in order. *)
Theorem default_date_range_keeps_all (first : row) (rest : DataFrame) :
  filtered_df (min_date first rest) (max_date first rest) (first :: rest)
  = first :: rest.
Proof.
  apply filter_all. intros x Hx. unfold mask, min_date, max_date.
  assert (Hx' : created_at x = created_at first \/ In (created_at x) (map created_at rest)).
  { destruct Hx as [<-|Hx]; [now left | right; now apply in_map]. }
  pose proof (fold_min_le _ _ _ Hx') as Hmin.
  pose proof (fold_max_ge _ _ _ Hx') as Hmax.
  apply andb_true_iff. rewrite Z.geb_le, Z.leb_le. unfold dt_date.
  split; apply Z.div_le_mono; try assumption; reflexivity.
Qed.

(** Every row is completed or open. *)
Lemma completed_open_length (filtered : DataFrame) :
  (List.length (completed_items filtered) + List.length (open_df filtered)
   = List.length filtered)%nat.
Proof.
  unfold completed_items, open_df.
  induction filtered as [|r l IH]; [reflexivity|]. simpl.
  destruct (isin (status r) done_statuses); simpl; lia.
Qed.

(** X3: for a selection with a row in it, the completion rate is 100
    exactly when no row is open and 0 exactly when no row is completed. *)
Theorem completion_rate_extremes (first : row) (rest : DataFrame) :
  (completion_rate (first :: rest) == 100 <-> open_df (first :: rest) = [])%Q
  /\ (completion_rate (first :: rest) == 0 <-> completed_items (first :: rest) = [])%Q.
Proof.
  destruct completion_rate_spec as (_ & Hrate & _ & _).
  rewrite (Hrate first rest).
  pose proof (completed_open_length (first :: rest)) as Hlen.
  set (f := first :: rest) in *.
  assert (Hpos : (0 < List.length f)%nat) by (unfold f; simpl; lia).
  set (c := List.length (completed_items f)) in *.
  set (o := List.length (open_df f)) in *.
  set (t := List.length f) in *.
  assert (Ht : ~ (inject_Z (Z.of_nat t) == 0)%Q).
  { intros H. change 0%Q with (inject_Z 0) in H. rewrite inject_Z_injective in H. lia. }
  assert (Hdiv : forall q : Q,
             (inject_Z (Z.of_nat c) / inject_Z (Z.of_nat t) == q
              <-> inject_Z (Z.of_nat c) == q * inject_Z (Z.of_nat t))%Q).
  { intros q. split; intros H.
    - rewrite <- H. field. exact Ht.
    - rewrite H. field. exact Ht. }
  split.
  - transitivity (inject_Z (Z.of_nat c) / inject_Z (Z.of_nat t) == 1)%Q.
    { split; intros H; lra. }
    rewrite Hdiv, Qmult_1_l, inject_Z_injective.
    unfold o in Hlen. split.
    + intros H. apply length_zero_iff_nil. lia.
    + intros H. rewrite H in Hlen. simpl in Hlen. lia.
  - transitivity (inject_Z (Z.of_nat c) / inject_Z (Z.of_nat t) == 0)%Q.
    { split; intros H; lra. }
    rewrite Hdiv, Qmult_0_l. change 0%Q with (inject_Z 0).
    rewrite inject_Z_injective. unfold c. split.
    + intros H. apply length_zero_iff_nil. lia.
    + intros H. rewrite H. reflexivity.
Qed.


(** X4: the completion days of a row are [d] exactly when the time from
    creation to last update is at least [d] days and less than [d + 1]:
    part days are dropped, towards minus infinity. *)
Theorem completion_days_whole_days (r : row) (d : Z) :
  completion_days r = d <->
  d * NS_PER_DAY <= updated_at r - created_at r < (d + 1) * NS_PER_DAY.
Proof.
  unfold completion_days.
  pose proof (dt_days_le (updated_at r - created_at r) d) as Hle.
  pose proof (dt_date_ge (updated_at r - created_at r) d) as Hge.
  unfold dt_date in Hge. unfold dt_days in *. lia.
Qed.

Lemma sum_bounds (lo hi : Z) (col : list Z) :
  (forall x, In x col -> lo <= x <= hi) ->
  lo * Z.of_nat (List.length col) <= fold_right Z.add 0 col
  <= hi * Z.of_nat (List.length col).
Proof.
  induction col as [|x col IH]; intros H; [simpl; lia|].
  specialize (IH (fun y Hy => H y (or_intror Hy))).
  specialize (H x (or_introl eq_refl)).
  cbn [fold_right List.length]. rewrite Nat2Z.inj_succ. lia.
Qed.

(** X5: the average completion time is not reported exactly when no row
    is completed; otherwise it lies between any two bounds that hold for
    the completion days of every completed row. *)
Theorem avg_completion_bounds (filtered : DataFrame) (lo hi : Z) :
  (forall r, In r (completed_items filtered) -> lo <= completion_days r <= hi) ->
  match avg_completion filtered with
  | Some avg => (inject_Z lo <= avg <= inject_Z hi)%Q
  | None => completed_items filtered = []
  end.
Proof.
  intros H. unfold avg_completion.
  destruct (completed_items filtered) as [|r l] eqn:E; [reflexivity|].
  unfold mean. set (col := map completion_days (r :: l)).
  assert (Hcol : forall x, In x col -> lo <= x <= hi).
  { intros x Hx. apply in_map_iff in Hx. destruct Hx as (y & <- & Hy). now apply H. }
  pose proof (sum_bounds lo hi col Hcol) as [Hlo Hhi].
  assert (Hn : (0 < inject_Z (Z.of_nat (List.length col)))%Q).
  { rewrite <- (Zlt_Qlt 0). unfold col. simpl. lia. }
  split.
  - apply Qle_shift_div_l; [exact Hn|].
    rewrite <- inject_Z_mult, <- Zle_Qle. exact Hlo.
  - apply Qle_shift_div_r; [exact Hn|].
    rewrite <- inject_Z_mult, <- Zle_Qle. exact Hhi.
Qed.

Lemma isin_done_statuses_false_iff (st : option string) :
  isin st done_statuses = false <-> st <> Some "Done" /\ st <> Some "Closed".
Proof.
  split.
  - intros H. split; intros E; rewrite E in H; discriminate.
  - intros [H1 H2]. now apply isin_done_statuses_false.
Qed.

(** X6: the stale list holds exactly the rows of the snapshot that pass
    the date filter, have a status other than "Done" and "Closed" (a
    missing status included), and were last updated 31 days ago or
    more: an age of 30 days and some hours is not stale. *)
Theorem stale_spec (start_date end_date now : Z) (df : DataFrame) (r : row) :
  In r (run_stale start_date end_date now df) <->
  In r df
  /\ start_date <= dt_date (created_at r) <= end_date
  /\ status r <> Some "Done" /\ status r <> Some "Closed"
  /\ 31 * NS_PER_DAY <= now - updated_at r.
Proof.
  unfold run_stale.
  rewrite in_stale, in_filtered_df, isin_done_statuses_false_iff. tauto.
Qed.


(** *** Workload rows *)

Lemma workload_cell_app (a b : string) (l1 l2 : list (string * string)) :
  workload_cell a b (l1 ++ l2)
  = (workload_cell a b l1 + workload_cell a b l2)%nat.
Proof. unfold workload_cell. now rewrite filter_app, length_app. Qed.

Lemma workload_cell_row (a b : string) (r : row) :
  workload_cell a b (assignee_rows r)
  = if String.eqb (if isin (status r) done_statuses then "Closed" else "Open") b
    then count_occ string_dec (assignee_tokens r) a
    else 0%nat.
Proof.
  unfold workload_cell, assignee_rows, assignee_tokens.
  set (B := if isin (status r) done_statuses then "Closed" else "Open").
  induction (PyStr.tokens (py_str (assignees r))) as [|t l IH].
  - simpl. now destruct (String.eqb B b).
  - cbn [map filter fst snd count_occ].
    destruct (string_dec t a) as [->|Hne].
    + rewrite String.eqb_refl. destruct (String.eqb B b); simpl in *; [now rewrite IH | exact IH].
    + destruct (String.eqb t a) eqn:E; [apply String.eqb_eq in E; contradiction|].
      simpl. exact IH.
Qed.

(** X7: in the workload rows, the number of rows of an assignee in the
    "Closed" bucket is the number of times the assignee is named by the
    completed rows, and in the "Open" bucket by the open rows; there is
    no other bucket. *)
Theorem workload_counts (filtered : DataFrame) (a : string) :
  workload_cell a "Closed" (assignee_status filtered)
  = count_occ string_dec (flat_map assignee_tokens (completed_items filtered)) a
  /\ workload_cell a "Open" (assignee_status filtered)
     = count_occ string_dec (flat_map assignee_tokens (open_df filtered)) a
  /\ (forall p, In p (assignee_status filtered) -> snd p = "Closed" \/ snd p = "Open").
Proof.
  unfold assignee_status, completed_items, open_df. repeat split.
  - induction filtered as [|r l IH]; [reflexivity|].
    cbn [flat_map filter]. rewrite workload_cell_app, workload_cell_row, IH.
    destruct (isin (status r) done_statuses); simpl.
    + now rewrite count_occ_app.
    + reflexivity.
  - induction filtered as [|r l IH]; [reflexivity|].
    cbn [flat_map filter]. rewrite workload_cell_app, workload_cell_row, IH.
    destruct (isin (status r) done_statuses); simpl.
    + reflexivity.
    + now rewrite count_occ_app.
  - intros p Hp. apply in_flat_map in Hp. destruct Hp as (r & _ & Hp).
    unfold assignee_rows in Hp. apply in_map_iff in Hp.
    destruct Hp as (t & <- & _). simpl.
    destruct (isin (status r) done_statuses); auto.
Qed.

Lemma assignee_rows_length (r : row) :
  List.length (assignee_rows r)
  = List.length (filter (fun a => PyStr.truthy (PyStr.strip a))
                        (PyStr.split_comma (py_str (assignees r)))).
Proof. unfold assignee_rows, PyStr.tokens. now rewrite !length_map. Qed.

(** X9: the multi-assignee list holds exactly the rows that contribute
    more than one workload row. *)
Theorem multi_assignees_spec (filtered : DataFrame) (r : row) :
  In r (multi_assignees filtered) <->
  In r filtered /\ (1 < List.length (assignee_rows r))%nat.
Proof.
  unfold multi_assignees. rewrite filter_In, Nat.ltb_lt, assignee_rows_length.
  tauto.
Qed.

(** X8: a row whose assignee cell is missing contributes one workload
    row, under the name "nan", and is never listed as having several
    assignees. *)
Theorem missing_assignees_counted_as_nan (r : row) :
  assignees r = None ->
  assignee_rows r
  = [("nan", if isin (status r) done_statuses then "Closed" else "Open")]
  /\ forall filtered, ~ In r (multi_assignees filtered).
Proof.
  intros H. assert (Hrows : assignee_rows r
    = [("nan", if isin (status r) done_statuses then "Closed" else "Open")]).
  { unfold assignee_rows. rewrite H. reflexivity. }
  split; [exact Hrows|]. intros filtered Hin.
  apply multi_assignees_spec in Hin. destruct Hin as [_ Hlen].
  rewrite Hrows in Hlen. simpl in Hlen. lia.
Qed.

Lemma isna_or_blank_spec (x : option string) :
  isna_or_blank x = true <-> x = None \/ exists s, x = Some s /\ PyStr.strip s = "".
Proof.
  destruct x as [s|]; simpl.
  - rewrite String.eqb_eq. split.
    + intros H. right. now exists s.
    + intros [H|(s' & H & Hs)]; [discriminate|]. now inversion H; subst.
  - split; auto.
Qed.

(** X11: when the flagged list is computed, it holds exactly the
    selected rows whose label cell or assignee cell is missing or blank;
    a row with a missing or blank label cell adds nothing to the label
    ranking, and a row with a missing or blank assignee cell is never
    listed as having several assignees. *)
Theorem flagged_rows_lack_metadata
  (labels_text assignees_text : bool) (filtered flagged_rows : DataFrame) (r : row) :
  flagged labels_text assignees_text filtered = Some flagged_rows ->
  (In r flagged_rows <->
   In r filtered /\ (isna_or_blank (labels r) = true \/ isna_or_blank (assignees r) = true))
  /\ (isna_or_blank (labels r) = true -> PyStr.tokens (fillna (labels r)) = [])
  /\ (isna_or_blank (assignees r) = true ->
      forall f, ~ In r (multi_assignees f)).
Proof.
  unfold flagged. intros H.
  destruct (labels_text && assignees_text); [|discriminate].
  injection H as <-. split; [|split].
  - rewrite filter_In, orb_true_iff. tauto.
  - intros Hl. apply isna_or_blank_spec in Hl.
    destruct Hl as [->|(s & -> & Hs)]; [reflexivity|].
    now apply PyStrMore.tokens_blank.
  - intros Ha f Hin. apply isna_or_blank_spec in Ha.
    destruct Ha as [Ha|(s & Ha & Hs)].
    + now apply (proj2 (missing_assignees_counted_as_nan r Ha) f).
    + apply multi_assignees_spec in Hin. destruct Hin as [_ Hlen].
      unfold assignee_rows in Hlen. rewrite Ha in Hlen. simpl py_str in Hlen.
      rewrite (PyStrMore.tokens_blank s Hs) in Hlen. simpl in Hlen. lia.
Qed.

(** *** Label totals *)

Lemma counts_total_counter_add (k : string) (c : list (string * nat)) :
  counts_total (counter_add k c) = S (counts_total c).
Proof.
  unfold counts_total. induction c as [|[k0 n] r IH]; simpl; [reflexivity|].
  destruct (String.eqb k k0); simpl; [lia | rewrite IH; lia].
Qed.

Lemma counts_total_Counter (xs : list string) :
  counts_total (Counter xs) = List.length xs.
Proof.
  unfold Counter.
  assert (H : forall c, counts_total (fold_left (fun c k => counter_add k c) xs c)
                        = (List.length xs + counts_total c)%nat).
  { induction xs as [|x xs IH]; intros c; simpl; [reflexivity|].
    rewrite IH, counts_total_counter_add. lia. }
  rewrite H. simpl. lia.
Qed.

Lemma counts_total_perm {K} (s s' : list (K * nat)) :
  Permutation s s' -> counts_total s = counts_total s'.
Proof.
  unfold counts_total. induction 1; simpl; lia.
Qed.

(** X12: the counts of the label ranking add up to the number of label
    tokens of the selection. *)
Theorem label_counts_total
  (sort : list (string * nat) -> list (string * nat)) (filtered : DataFrame) :
  sorts_descending sort ->
  counts_total (label_counts sort filtered) = List.length (all_labels filtered).
Proof.
  intros Hsort.
  rewrite <- (counts_total_perm _ _ (label_counts_perm sort filtered Hsort)).
  apply counts_total_Counter.
Qed.

Lemma descending_head_skip (n : nat) (s : list (string * nat)) (x y : string * nat) :
  descending s -> In x (head n s) -> In y (skipn n s) -> (snd y <= snd x)%nat.
Proof.
  unfold descending, head. revert n. induction s as [|a s IH]; intros n Hs Hx Hy.
  - destruct n; contradiction.
  - inversion Hs as [|? ? Hs' Hall]; subst. destruct n as [|n]; [contradiction|].
    simpl in Hx, Hy. destruct Hx as [<-|Hx].
    + rewrite Forall_forall in Hall. apply Hall.
      rewrite <- (firstn_skipn n s). apply in_or_app. now right.
    + now apply (IH n).
Qed.

(** X13: no label left out of the first [n] of the ranking (the chart
    shows the first 10) has a higher count than a label among them. *)
Theorem label_chart_shows_top
  (sort : list (string * nat) -> list (string * nat)) (filtered : DataFrame)
  (n : nat) (shown hidden : string * nat) :
  sorts_descending sort ->
  In shown (head n (label_counts sort filtered)) ->
  In hidden (skipn n (label_counts sort filtered)) ->
  (snd hidden <= snd shown)%nat.
Proof.
  intros Hsort. apply descending_head_skip.
  unfold label_counts. destruct (all_labels filtered); [constructor | apply Hsort].
Qed.

Lemma avg_completion_bounds_witness :
  match avg_completion [Samples.old_done; Samples.backdated] with
  | Some avg => (inject_Z (-3) <= avg <= inject_Z 100)%Q
  | None => completed_items [Samples.old_done; Samples.backdated] = []
  end.
Proof.
  apply avg_completion_bounds. intros r Hr.
  change (completed_items [Samples.old_done; Samples.backdated])
    with [Samples.old_done; Samples.backdated] in Hr.
  destruct Hr as [<-|[<-|[]]]; vm_compute; split; discriminate.
Defined.

Lemma missing_assignees_counted_as_nan_witness :
  assignees Samples.new_open = None
  /\ assignee_rows Samples.new_open = [("nan", "Open")]
  /\ ~ In Samples.new_open (multi_assignees Samples.board).
Proof.
  assert (H : assignees Samples.new_open = None) by reflexivity.
  destruct (missing_assignees_counted_as_nan Samples.new_open H) as [Hrows Hmulti].
  split; [exact H|]. split; [exact Hrows | apply Hmulti].
Defined.

Lemma flagged_rows_lack_metadata_witness :
  flagged true true Samples.quarter = Some [Samples.mar_open]
  /\ isna_or_blank (assignees Samples.mar_open) = true
  /\ ~ In Samples.mar_open (multi_assignees Samples.quarter).
Proof.
  assert (H : flagged true true Samples.quarter = Some [Samples.mar_open])
    by reflexivity.
  destruct (flagged_rows_lack_metadata _ _ _ _ Samples.mar_open H) as (_ & _ & Hmulti).
  split; [exact H|]. split; [reflexivity | now apply Hmulti].
Defined.

Lemma label_counts_total_witness :
  sorts_descending sort_values_stable
  /\ counts_total (label_counts sort_values_stable Samples.quarter) = 4%nat.
Proof.
  split; [exact sort_values_stable_sorts|].
  exact (label_counts_total sort_values_stable Samples.quarter
           sort_values_stable_sorts).
Defined.

Lemma label_chart_shows_top_witness :
  In ("a", 2%nat)
     (head 1 (label_counts sort_values_stable
                [Samples.two_labels; Samples.old_done; Samples.two_labels]))
  /\ In ("billing", 1%nat)
        (skipn 1 (label_counts sort_values_stable
                    [Samples.two_labels; Samples.old_done; Samples.two_labels]))
  /\ (snd ("billing", 1%nat) <= snd ("a", 2%nat))%nat.
Proof.
  assert (Hs : In ("a", 2%nat)
                  (head 1 (label_counts sort_values_stable
                             [Samples.two_labels; Samples.old_done; Samples.two_labels])))
    by (vm_compute; left; reflexivity).
  assert (Hh : In ("billing", 1%nat)
                  (skipn 1 (label_counts sort_values_stable
                              [Samples.two_labels; Samples.old_done; Samples.two_labels])))
    by (vm_compute; right; left; reflexivity).
  split; [exact Hs|]. split; [exact Hh|].
  exact (label_chart_shows_top sort_values_stable _ 1 _ _
           sort_values_stable_sorts Hs Hh).
Defined.

End DashboardMore.

(* ===================================================================== *)
(** ** The monthly trend *)
(* ===================================================================== *)

Module TrendFacts.
Import Dashboard DashboardFacts.

Lemma ascending_NoDup (idx : list Z) : ascending idx -> NoDup idx.
Proof.
  induction 1 as [|k idx _ IH Hall]; constructor; [|exact IH].
  intros Hin. rewrite Forall_forall in Hall. specialize (Hall k Hin). lia.
Qed.

Lemma series_get_absent (k : Z) (s : list (Z * nat)) :
  ~ In k (map fst s) -> series_get k s = None.
Proof.
  induction s as [|[k0 n] r IH]; simpl; [reflexivity|]. intros H.
  destruct (Z.eqb_spec k k0) as [->|Hne]; [tauto|]. apply IH. tauto.
Qed.

Lemma count_insert_keys (k' : Z) (s : list (Z * nat)) (k : Z) :
  In k (map fst (count_insert k' s)) <-> k = k' \/ In k (map fst s).
Proof.
  induction s as [|[k0 n] r IH]; simpl; [intuition|].
  destruct (Z.ltb_spec k' k0); simpl; [intuition|].
  destruct (Z.eqb_spec k' k0) as [->|Hne]; simpl; [intuition|].
  rewrite IH. intuition.
Qed.

Lemma count_insert_ascending (k' : Z) (s : list (Z * nat)) :
  ascending (map fst s) -> ascending (map fst (count_insert k' s)).
Proof.
  unfold ascending. induction s as [|[k0 n] r IH]; simpl; intros Hs.
  - repeat constructor.
  - inversion Hs as [|? ? Hr Hall]; subst.
    destruct (Z.ltb_spec k' k0); simpl.
    + constructor; [exact Hs|]. constructor; [exact H|].
      eapply Forall_impl; [|exact Hall]. simpl. intros; lia.
    + destruct (Z.eqb_spec k' k0) as [->|Hne]; simpl; [exact Hs|].
      constructor; [now apply IH|].
      rewrite Forall_forall in *. intros x Hx.
      apply count_insert_keys in Hx. destruct Hx as [->|Hx]; [lia | now apply Hall].
Qed.

Lemma cell_count_insert (k k' : Z) (s : list (Z * nat)) :
  ascending (map fst s) ->
  cell k (count_insert k' s) = if k =? k' then S (cell k s) else cell k s.
Proof.
  unfold cell, ascending. induction s as [|[k0 n] r IH]; simpl; intros Hs.
  - now destruct (k =? k').
  - inversion Hs as [|? ? Hr Hall]; subst. specialize (IH Hr).
    destruct (Z.ltb_spec k' k0); simpl.
    + destruct (Z.eqb_spec k k') as [->|Hne]; [|reflexivity].
      destruct (Z.eqb_spec k' k0); [lia|].
      rewrite series_get_absent; [reflexivity|].
      intros Hin. rewrite Forall_forall in Hall. specialize (Hall _ Hin). lia.
    + destruct (Z.eqb_spec k' k0) as [->|Hne]; simpl.
      * destruct (Z.eqb_spec k k0); reflexivity.
      * destruct (Z.eqb_spec k k0) as [->|Hne'].
        -- destruct (Z.eqb_spec k0 k'); [congruence | reflexivity].
        -- exact IH.
Qed.

(** [value_counts().sort_index()]: ascending keys, the keys of the
    column, each with its number of occurrences. *)
Lemma value_counts_sort_index_spec (column : list Z) :
  ascending (map fst (value_counts_sort_index column))
  /\ (forall k, In k (map fst (value_counts_sort_index column)) <-> In k column)
  /\ (forall k, cell k (value_counts_sort_index column) = count_occ Z.eq_dec column k).
Proof.
  unfold value_counts_sort_index.
  induction column as [|x col (IHa & IHk & IHc)]; simpl.
  - split; [constructor|]. split; [tauto | reflexivity].
  - split; [now apply count_insert_ascending|]. split.
    + intros k. rewrite count_insert_keys, IHk. intuition.
    + intros k. rewrite (cell_count_insert _ _ _ IHa), IHc.
      destruct (Z.eq_dec x k) as [->|Hne].
      * now rewrite Z.eqb_refl.
      * destruct (Z.eqb_spec k x); [congruence | reflexivity].
Qed.

Lemma index_insert_In (k' : Z) (idx : list Z) (k : Z) :
  In k (index_insert k' idx) <-> k = k' \/ In k idx.
Proof.
  induction idx as [|k0 r IH]; simpl; [intuition|].
  destruct (Z.ltb_spec k' k0); simpl; [intuition|].
  destruct (Z.eqb_spec k' k0) as [->|Hne]; simpl; [intuition|].
  rewrite IH. intuition.
Qed.

Lemma index_insert_ascending (k' : Z) (idx : list Z) :
  ascending idx -> ascending (index_insert k' idx).
Proof.
  unfold ascending. induction idx as [|k0 r IH]; simpl; intros Hs.
  - repeat constructor.
  - inversion Hs as [|? ? Hr Hall]; subst.
    destruct (Z.ltb_spec k' k0); simpl.
    + constructor; [exact Hs|]. constructor; [exact H|].
      eapply Forall_impl; [|exact Hall]. simpl. intros; lia.
    + destruct (Z.eqb_spec k' k0) as [->|Hne]; simpl; [exact Hs|].
      constructor; [now apply IH|].
      rewrite Forall_forall in *. intros x Hx.
      apply index_insert_In in Hx. destruct Hx as [->|Hx]; [lia | now apply Hall].
Qed.

Lemma union_index_spec (a b : list (Z * nat)) :
  ascending (union_index a b)
  /\ forall k, In k (union_index a b) <-> In k (map fst a) \/ In k (map fst b).
Proof.
  unfold union_index. setoid_rewrite <- in_app_iff.
  induction (map fst a ++ map fst b)%list as [|x l [IHa IHk]]; simpl.
  - split; [constructor | tauto].
  - split; [now apply index_insert_ascending|].
    intros k. rewrite index_insert_In, IHk. intuition.
Qed.


Lemma list_sum_cons (a : nat) (l : list nat) :
  list_sum (a :: l) = (a + list_sum l)%nat.
Proof. reflexivity. Qed.

Lemma sum_indicator (x : Z) (idx : list Z) :
  list_sum (map (indicator x) idx) = count_occ Z.eq_dec idx x.
Proof.
  induction idx as [|k idx IH]; [reflexivity|].
  rewrite map_cons, list_sum_cons, IH. cbn [count_occ].
  unfold indicator. destruct (Z.eq_dec x k) as [->|Hne].
  - destruct (Z.eq_dec k k); [reflexivity | contradiction].
  - destruct (Z.eq_dec k x); [congruence | reflexivity].
Qed.

(** Over an index that covers a column, the counts add up to the length
    of the column. *)
Lemma sum_count_occ (column idx : list Z) :
  NoDup idx -> incl column idx ->
  list_sum (map (count_occ Z.eq_dec column) idx) = List.length column.
Proof.
  intros Hnd. induction column as [|x col IH]; intros Hincl.
  - clear. induction idx as [|k idx IHi]; [reflexivity | exact IHi].
  - assert (Hx : In x idx) by (apply Hincl; now left).
    assert (Hcol : incl col idx) by (intros y Hy; apply Hincl; now right).
    specialize (IH Hcol).
    transitivity (list_sum (map (indicator x) idx)
                  + list_sum (map (count_occ Z.eq_dec col) idx))%nat.
    + clear. induction idx as [|k idx IHi]; [reflexivity|].
      rewrite !map_cons, !list_sum_cons, IHi. unfold indicator.
      cbn [count_occ]. destruct (Z.eq_dec x k); lia.
    + rewrite sum_indicator, IH.
      rewrite (proj1 (NoDup_count_occ' Z.eq_dec idx) Hnd x Hx). reflexivity.
Qed.

Section TrendTable.
Variable month_of : Z -> Z.

Lemma trend_df_index (filtered : DataFrame) :
  map (fun t => fst (fst t)) (trend_df month_of filtered)
  = union_index (created_per_month month_of filtered)
                (closed_per_month month_of filtered).
Proof.
  unfold trend_df, trend_frame. rewrite map_map. simpl. apply map_id.
Qed.

(** X14: the months of the trend table are in ascending order without
    repetition, and they are exactly the months in which a selected row
    was created or a completed selected row was last updated. *)
Theorem trend_months (filtered : DataFrame) :
  ascending (map (fun t => fst (fst t)) (trend_df month_of filtered))
  /\ forall m : Z,
       In m (map (fun t => fst (fst t)) (trend_df month_of filtered)) <->
       (exists r, In r filtered /\ month_of (created_at r) = m)
       \/ (exists r, In r (closed_df filtered) /\ month_of (updated_at r) = m).
Proof.
  rewrite trend_df_index.
  destruct (union_index_spec (created_per_month month_of filtered)
                             (closed_per_month month_of filtered)) as [Ha Hk].
  split; [exact Ha|]. intros m. rewrite Hk. unfold created_per_month, closed_per_month.
  rewrite !(proj1 (proj2 (value_counts_sort_index_spec _))), !in_map_iff.
  split; intros [(r & H1 & H2)|(r & H1 & H2)]; eauto.
Qed.

(** X15: in each row of the trend table, the created count is the
    number of selected rows created in that month and the closed count
    the number of completed rows last updated in it, 0 where there is
    none. *)
Theorem trend_cells (filtered : DataFrame) (m : Z) (created closed : nat) :
  In (m, created, closed) (trend_df month_of filtered) ->
  created = count_occ Z.eq_dec (map (fun r => month_of (created_at r)) filtered) m
  /\ closed = count_occ Z.eq_dec
                (map (fun r => month_of (updated_at r)) (closed_df filtered)) m.
Proof.
  unfold trend_df, trend_frame. intros H. apply in_map_iff in H.
  destruct H as (k & Heq & _). injection Heq as -> <- <-.
  fold (cell m (created_per_month month_of filtered)).
  fold (cell m (closed_per_month month_of filtered)).
  unfold created_per_month, closed_per_month.
  now rewrite !(proj2 (proj2 (value_counts_sort_index_spec _))).
Qed.

(** X16: the created column of the trend table adds up to the number of
    selected rows and the closed column to the number of completed
    rows. *)
Theorem trend_totals (filtered : DataFrame) :
  list_sum (map (fun t => snd (fst t)) (trend_df month_of filtered))
  = List.length filtered
  /\ list_sum (map snd (trend_df month_of filtered))
     = List.length (closed_df filtered).
Proof.
  destruct (union_index_spec (created_per_month month_of filtered)
                             (closed_per_month month_of filtered)) as [Ha Hk].
  apply ascending_NoDup in Ha.
  unfold trend_df, trend_frame. rewrite !map_map. cbn [fst snd].
  split.
  - rewrite (map_ext _ (count_occ Z.eq_dec (map (fun r => month_of (created_at r)) filtered))).
    + rewrite (sum_count_occ _ _ Ha); [apply length_map|].
      intros k Hin. apply Hk. left. unfold created_per_month.
      now apply (proj1 (proj2 (value_counts_sort_index_spec _))).
    + intros k. fold (cell k (created_per_month month_of filtered)).
      unfold created_per_month.
      now rewrite (proj2 (proj2 (value_counts_sort_index_spec _))).
  - rewrite (map_ext _ (count_occ Z.eq_dec (map (fun r => month_of (updated_at r)) (closed_df filtered)))).
    + rewrite (sum_count_occ _ _ Ha); [apply length_map|].
      intros k Hin. apply Hk. right. unfold closed_per_month.
      now apply (proj1 (proj2 (value_counts_sort_index_spec _))).
    + intros k. fold (cell k (closed_per_month month_of filtered)).
      unfold closed_per_month.
      now rewrite (proj2 (proj2 (value_counts_sort_index_spec _))).
Qed.
End TrendTable.

Lemma trend_cells_witness :
  trend_df month_ordinal Samples.quarter
  = [(24288, 2%nat, 0%nat); (24289, 0%nat, 1%nat); (24290, 1%nat, 0%nat)]
  /\ 0%nat = count_occ Z.eq_dec
               (map (fun r => month_ordinal (created_at r)) Samples.quarter) 24289
  /\ 1%nat = count_occ Z.eq_dec
               (map (fun r => month_ordinal (updated_at r))
                    (closed_df Samples.quarter)) 24289.
Proof.
  assert (Ht : trend_df month_ordinal Samples.quarter
               = [(24288, 2%nat, 0%nat); (24289, 0%nat, 1%nat); (24290, 1%nat, 0%nat)])
    by (vm_compute; reflexivity).
  split; [exact Ht|].
  apply (trend_cells month_ordinal Samples.quarter 24289 0 1).
  rewrite Ht. right. left. reflexivity.
Defined.

End TrendFacts.

(* ===================================================================== *)
(** ** More on the extraction *)
(* ===================================================================== *)

Module FetchMore.
Import Fetch FetchFacts.

(** *** The assignee and label cells *)

Lemma names_of_connection (field : string) (l : list json) :
  forallb (has_string_member field) l = true ->
  mapM (fun a => subscript a field) l
  = Returns (map JStr (flat_map (fun a => match member a field with
                                          | JStr s => [s]
                                          | _ => []
                                          end) l)).
Proof.
  induction l as [|a r IH]; intros H; [reflexivity|].
  simpl in H. apply andb_true_iff in H. destruct H as [Ha Hr].
  unfold has_string_member in Ha.
  destruct a as [| | | | |akv]; try discriminate.
  destruct (lookup field akv) as [v|] eqn:E; [|discriminate].
  destruct v as [| | |s| |]; try discriminate.
  cbn [mapM flat_map]. unfold subscript at 1, member at 1. rewrite E.
  cbn [bind]. rewrite (IH Hr). reflexivity.
Qed.

Lemma joined_names (kv : list (string * json)) (key field : string) :
  absent_or (wf_connection field) key kv = true ->
  joined (JObj kv) key field
  = Returns (PyStr.join ", " (connection_names (JObj kv) key field)).
Proof.
  unfold absent_or, connection_names. intros H. unfold member at 2.
  destruct (lookup key kv) as [conn|] eqn:E.
  - unfold joined, contains, get at 1. rewrite E. cbn [bind].
    destruct conn as [| | | | |ckv]; try discriminate.
    unfold wf_connection, absent_or in H. unfold get, member.
    destruct (lookup "nodes" ckv) as [ns|].
    + destruct ns as [| | | |l|]; try discriminate.
      cbn [bind py_iter]. rewrite (names_of_connection field l H).
      cbn [bind]. apply join_comma_strings.
    + reflexivity.
  - now apply joined_absent.
Qed.

Lemma connection_names_content_of (node : json) (key field : string) :
  wf_content (member node "content") = true ->
  connection_names (content_of node) key field
  = connection_names (member node "content") key field.
Proof.
  unfold content_of. intros H.
  destruct (member node "content") as [| | | | |kv]; try discriminate; [reflexivity|].
  destruct kv; reflexivity.
Qed.

(** X17: the record of a well-shaped node carries the logins of its
    assignees and the names of its labels, in the order of the reply,
    joined by a comma and a blank, and the title, number and url of its
    content ("(No title)" and [null] where the content has none). *)
Theorem cells_keep_names (node : json) :
  wf_node node = true ->
  exists it : item,
    normalize node = Returns it
    /\ assignees it
       = PyStr.join ", " (connection_names (member node "content") "assignees" "login")
    /\ labels it
       = PyStr.join ", " (connection_names (member node "content") "labels" "name")
    /\ title it = field_or (member node "content") "title" (JStr "(No title)")
    /\ number it = field_or (member node "content") "number" JNull
    /\ url it = field_or (member node "content") "url" JNull.
Proof.
  intros Hwf. destruct (normalize_wf node Hwf) as (a & l & Ha & Hl & Hn).
  rewrite !field_or_content_of in Hn.
  destruct (wf_node_inv node Hwf)
    as (kv & fkv & c & sc & su & fvs & -> & Ec & Hc & _).
  assert (Hm : member (JObj kv) "content" = c) by (unfold member; now rewrite Ec).
  destruct (content_of_dict (JObj kv)) as (ckv & Hco & Hcwf); [now rewrite Hm|].
  rewrite <- !(connection_names_content_of (JObj kv)) by now rewrite Hm.
  rewrite Hco in *. simpl in Hcwf. rewrite !andb_true_iff in Hcwf.
  destruct Hcwf as [[[Hwa Hwl] _] _].
  rewrite (joined_names ckv _ _ Hwa) in Ha. rewrite (joined_names ckv _ _ Hwl) in Hl.
  injection Ha as <-. injection Hl as <-.
  eexists. split; [exact Hn|]. repeat split.
Qed.


(** *** Missing keys *)

(** X19: the item's own [createdAt] and [updatedAt] are read whether or
    not the content has timestamps: without the first the node raises
    [KeyError] for it, and with the first but without the second for
    the second. *)
Theorem container_timestamps_required (kv : list (string * json)) (c : json) :
  lookup "content" kv = Some c ->
  wf_content c = true ->
  (lookup "createdAt" kv = None ->
   normalize (JObj kv) = Raises (KeyError "createdAt"))
  /\ (forall created : json,
         lookup "createdAt" kv = Some created ->
         lookup "updatedAt" kv = None ->
         normalize (JObj kv) = Raises (KeyError "updatedAt")).
Proof.
  intros Ec Hc.
  assert (Hm : member (JObj kv) "content" = c) by (unfold member; now rewrite Ec).
  destruct (content_of_dict (JObj kv)) as (ckv & Hco & Hcwf); [now rewrite Hm|].
  assert (Hco' : (if truthy c then c else JObj []) = JObj ckv).
  { unfold content_of in Hco. now rewrite Hm in Hco. }
  simpl in Hcwf. rewrite !andb_true_iff in Hcwf. destruct Hcwf as [[[Ha Hl] _] _].
  destruct (joined_wf ckv "assignees" "login" Ha) as [a Hja].
  destruct (joined_wf ckv "labels" "name" Hl) as [l Hjl].
  split; [intros Ecr | intros created Ecr Eup];
    unfold normalize, subscript, get, bind;
    repeat (cbv beta iota zeta;
            first [ rewrite Ec | rewrite Hco' | rewrite Hja | rewrite Hjl
                  | rewrite Ecr | rewrite Eup
                  | match goal with
                    | |- context [lookup ?k ckv] => destruct (lookup k ckv)
                    end ]);
    reflexivity.
Qed.

(** *** Exceptions inside a page *)

Lemma for_nodes_raises (good : list json) (bad : json) (rest : list json)
      (e : exn) (items : list item) :
  forallb wf_node good = true ->
  normalize bad = Raises e ->
  for_nodes (good ++ bad :: rest) items = Raises e.
Proof.
  revert items. induction good as [|g good IH]; intros items Hg Hbad.
  - cbn [app for_nodes]. now rewrite Hbad.
  - simpl in Hg. apply andb_true_iff in Hg. destruct Hg as [Hg1 Hg2].
    destruct (normalize_wf g Hg1) as (a & l & _ & _ & Hn).
    cbn [app for_nodes]. rewrite Hn. cbn [bind]. now apply IH.
Qed.

Lemma loop_body_page_raises
  (nodes : list json) (has_next : bool) (end_cursor : json)
  (e : exn) (items : list item) :
  for_nodes nodes items = Raises e ->
  loop_body (page_response nodes has_next end_cursor) items = Raises e.
Proof.
  intros Hfor. unfold loop_body, page_response, run_query.
  cbn [status_code json_body Z.eqb Pos.eqb negb bind].
  change (page_items (page_body nodes has_next end_cursor))
    with (Returns (JObj [("pageInfo",
                          JObj [("hasNextPage", JBool has_next);
                                ("endCursor", end_cursor)]);
                         ("nodes", JArr nodes)])).
  cbn [bind].
  change (subscript (JObj [("pageInfo",
                            JObj [("hasNextPage", JBool has_next);
                                  ("endCursor", end_cursor)]);
                           ("nodes", JArr nodes)]) "nodes")
    with (Returns (JArr nodes)).
  cbn [bind py_iter]. now rewrite Hfor.
Qed.

(** X20: when the record of a node cannot be built, the exception ends
    the whole run: the records of the earlier pages and of the earlier
    nodes of the page are not returned. *)
Theorem node_exception_aborts
  (project_id : string) (earlier : list (list json * json))
  (good : list json) (bad : json) (rest : list json)
  (has_next : bool) (end_cursor : json) (extra : list response) (e : exn) :
  forallb (forallb wf_node) (map fst earlier) = true ->
  forallb wf_node good = true ->
  normalize bad = Raises e ->
  outcome (get_all_project_items project_id
             (earlier_pages earlier
              ++ page_response (good ++ bad :: rest) has_next end_cursor :: extra))
  = Some (Raises e).
Proof.
  intros He Hg Hbad.
  destruct (while_true_earlier_pages project_id earlier
              (page_response (good ++ bad :: rest) has_next end_cursor :: extra) He)
    as (its & _ & Hloop).
  unfold get_all_project_items. rewrite Hloop. cbn [while_true].
  rewrite (loop_body_page_raises _ _ _ e); [reflexivity|].
  now apply for_nodes_raises.
Qed.

(** X21: the loop has no bound of its own: as long as every page
    announces a next one it has not returned, and it has asked for one
    page more than it received. *)
Theorem no_page_bound (project_id : string) (pages : list (list json * json)) :
  forallb (forallb wf_node) (map fst pages) = true ->
  outcome (get_all_project_items project_id (earlier_pages pages)) = None
  /\ sent (get_all_project_items project_id (earlier_pages pages))
     = map (variables project_id) (JNull :: map snd pages).
Proof.
  intros H.
  destruct (while_true_earlier_pages project_id pages [] H) as (its & _ & Hloop).
  unfold get_all_project_items. rewrite <- (app_nil_r (earlier_pages pages)).
  rewrite Hloop. cbn [while_true outcome sent]. split; [reflexivity|].
  rewrite <- (last_cons JNull JNull (map snd pages)).
  change [variables project_id (last (JNull :: map snd pages) JNull)]
    with (map (variables project_id) [last (JNull :: map snd pages) JNull]).
  rewrite app_nil_l, <- map_app, <- app_removelast_last; [reflexivity | discriminate].
Qed.

(** X22: a reply with status 200 whose [data.node] is [null], as for an
    id that names no project, ends the run with [TypeError]. *)
Theorem unknown_node_raises
  (project_id : string) (earlier : list (list json * json))
  (resp : response) (data d : json) (extra : list response) :
  forallb (forallb wf_node) (map fst earlier) = true ->
  status_code resp = 200 ->
  json_body resp = Some data ->
  subscript data "data" = Returns d ->
  subscript d "node" = Returns JNull ->
  outcome (get_all_project_items project_id (earlier_pages earlier ++ resp :: extra))
  = Some (Raises TypeError).
Proof.
  intros He Hs Hb Hd Hn.
  destruct (while_true_earlier_pages project_id earlier (resp :: extra) He)
    as (its & _ & Hloop).
  unfold get_all_project_items. rewrite Hloop. cbn [while_true].
  assert (Hbody : forall items, loop_body resp items = Raises TypeError).
  { intros items. unfold loop_body, run_query, page_items.
    rewrite Hs, Hb. cbn [Z.eqb Pos.eqb negb bind]. rewrite Hd. cbn [bind].
    rewrite Hn. reflexivity. }
  now rewrite Hbody.
Qed.


(** *** [main] *)

Lemma while_true_of_string (project_id : string) (replies : list response)
      (cursor : json) (items : list item) (log : list json) :
  while_true_of (JStr project_id) replies cursor items log
  = while_true project_id replies cursor items log.
Proof.
  revert cursor items log. induction replies as [|resp rest IH];
    intros cursor items log; [reflexivity|].
  cbn [while_true_of while_true].
  destruct (loop_body resp items) as [[items' [cursor'|]]|e]; try reflexivity.
  apply IH.
Qed.

(** The log only grows at its end, and the outcome does not depend on it. *)
Lemma while_true_log (project_id : string) (replies : list response)
      (cursor : json) (items : list item) (log : list json) :
  sent (while_true project_id replies cursor items log)
  = (log ++ sent (while_true project_id replies cursor items []))%list
  /\ outcome (while_true project_id replies cursor items log)
     = outcome (while_true project_id replies cursor items []).
Proof.
  revert cursor items log. induction replies as [|resp rest IH];
    intros cursor items log; [split; reflexivity|].
  cbn [while_true].
  destruct (loop_body resp items) as [[items' [cursor'|]]|e];
    try (split; reflexivity).
  destruct (IH cursor' items' (log ++ [variables project_id cursor])%list) as [H1 H2].
  destruct (IH cursor' items' ([] ++ [variables project_id cursor])%list) as [H3 H4].
  rewrite H1, H2, H3, H4. split; [|reflexivity].
  now rewrite <- app_assoc.
Qed.

(** X23: [main] runs the items loop with the id the lookup returned:
    after the lookup request it sends the requests of
    [get_all_project_items] for that id and ends as that call ends. *)
Theorem main_passes_project_id (project_id : string) (replies : list response) :
  sent (main (project_response (JStr project_id) :: replies))
  = lookup_variables ORG PROJECT_NUMBER
    :: sent (get_all_project_items project_id replies)
  /\ outcome (main (project_response (JStr project_id) :: replies))
     = outcome (get_all_project_items project_id replies).
Proof.
  unfold main.
  change (get_project_id (project_response (JStr project_id)))
    with (Returns (JStr project_id)).
  cbv beta iota. rewrite while_true_of_string. unfold get_all_project_items.
  destruct (while_true_log project_id replies JNull []
              [lookup_variables ORG PROJECT_NUMBER]) as [H1 H2].
  rewrite H1, H2. split; reflexivity.
Qed.

(** X24: when the lookup fails, by its transport status or because the
    organisation in the reply is [null], [main] ends with the exception
    after that one request, and no item is asked for. *)
Theorem main_stops_at_failed_lookup (resp : response) (replies : list response) :
  (status_code resp <> 200 ->
   main (resp :: replies)
   = mkRun [lookup_variables ORG PROJECT_NUMBER]
           (Some (Raises (QueryFailed (status_code resp) (text resp)))))
  /\ (forall data d : json,
         status_code resp = 200 ->
         json_body resp = Some data ->
         subscript data "data" = Returns d ->
         subscript d "organization" = Returns JNull ->
         main (resp :: replies)
         = mkRun [lookup_variables ORG PROJECT_NUMBER] (Some (Raises TypeError))).
Proof.
  split.
  - intros H. unfold main, get_project_id, run_query.
    apply Z.eqb_neq in H. now rewrite H.
  - intros data d Hs Hb Hd Ho. unfold main, get_project_id, run_query.
    rewrite Hs, Hb. cbn [Z.eqb Pos.eqb negb bind]. rewrite Hd. cbn [bind].
    rewrite Ho. reflexivity.
Qed.

Lemma cells_keep_names_witness :
  wf_node FetchSamples.issue_node = true
  /\ exists it : item,
       normalize FetchSamples.issue_node = Returns it
       /\ assignees it = "alice, bob"
       /\ labels it = "bug"
       /\ number it = JNum 17.
Proof.
  assert (Hwf : wf_node FetchSamples.issue_node = true) by reflexivity.
  split; [exact Hwf|].
  destruct (cells_keep_names FetchSamples.issue_node Hwf)
    as (it & Hn & Ha & Hl & _ & Hnum & _).
  exists it. repeat split; assumption.
Defined.


Lemma container_timestamps_required_witness :
  lookup "createdAt" FetchSamples.no_created_fields = None
  /\ normalize (JObj FetchSamples.no_created_fields) = Raises (KeyError "createdAt").
Proof.
  split; [reflexivity|].
  exact (proj1 (container_timestamps_required FetchSamples.no_created_fields
                  (JObj [("title", JStr "X"); ("createdAt", JStr "T1");
                         ("updatedAt", JStr "T2")])
                  eq_refl eq_refl) eq_refl).
Defined.

Lemma node_exception_aborts_witness :
  normalize JNull = Raises TypeError
  /\ outcome (get_all_project_items "PVT_kwDOA"
                (earlier_pages FetchSamples.first_two_pages
                 ++ [page_response
                       ([FetchSamples.draft_node] ++ JNull :: [FetchSamples.issue_node])
                       false JNull]))
     = Some (Raises TypeError).
Proof.
  assert (Hwf : forallb (forallb wf_node) (map fst FetchSamples.first_two_pages) = true)
    by (vm_compute; reflexivity).
  split; [reflexivity|].
  exact (node_exception_aborts "PVT_kwDOA" FetchSamples.first_two_pages
           [FetchSamples.draft_node] JNull [FetchSamples.issue_node]
           false JNull [] TypeError Hwf eq_refl eq_refl).
Defined.

Lemma no_page_bound_witness :
  outcome (get_all_project_items "PVT_kwDOA"
             (earlier_pages FetchSamples.first_two_pages)) = None
  /\ List.length (sent (get_all_project_items "PVT_kwDOA"
                          (earlier_pages FetchSamples.first_two_pages))) = 3%nat.
Proof.
  assert (Hwf : forallb (forallb wf_node) (map fst FetchSamples.first_two_pages) = true)
    by (vm_compute; reflexivity).
  destruct (no_page_bound "PVT_kwDOA" FetchSamples.first_two_pages Hwf) as [Ho Hs].
  split; [exact Ho|]. rewrite Hs. reflexivity.
Defined.

Lemma unknown_node_raises_witness :
  status_code FetchSamples.unknown_node_response = 200
  /\ outcome (get_all_project_items "PVT_missing"
                [FetchSamples.unknown_node_response])
     = Some (Raises TypeError).
Proof.
  split; [reflexivity|].
  exact (unknown_node_raises "PVT_missing" [] FetchSamples.unknown_node_response
           (JObj [("data", JObj [("node", JNull)]);
                  ("errors", JArr [JObj [("type", JStr "NOT_FOUND")]])])
           (JObj [("node", JNull)]) []
           eq_refl eq_refl eq_refl eq_refl eq_refl).
Defined.

End FetchMore.

(* ===================================================================== *)
(** ** The issue listing *)
(* ===================================================================== *)

Module IssueReportFacts.
Import Fetch IssueReport.

Lemma without_pull_requests_objects (page : list json) :
  forallb is_object page = true ->
  without_pull_requests page = Returns (filter not_pull_request page).
Proof.
  induction page as [|i r IH]; intros H; [reflexivity|].
  simpl in H. apply andb_true_iff in H. destruct H as [Hi Hr].
  destruct i as [| | | | |kv]; try discriminate.
  cbn [without_pull_requests filter]. unfold contains, not_pull_request, has_key.
  cbn [bind]. rewrite (IH Hr). cbn [bind].
  now destruct (lookup "pull_request" kv).
Qed.

Lemma no_message_among_objects (page : list json) :
  forallb is_object page = true ->
  contains "message" (JArr page) = Returns false.
Proof.
  intros H. unfold contains. f_equal.
  induction page as [|i r IH]; [reflexivity|].
  simpl in H. apply andb_true_iff in H. destruct H as [Hi Hr].
  destruct i; try discriminate. simpl. now apply IH.
Qed.

(** A page of objects: kept without its pull requests; the loop goes on
    when the page is full. *)
Lemma issues_loop_body_page (status : Z) (page issues : list json) :
  forallb is_object page = true ->
  issues_loop_body (listing_response status page) issues
  = Returns ((issues ++ filter not_pull_request page)%list,
             negb (List.length page <? PER_PAGE)%nat).
Proof.
  intros H. unfold issues_loop_body, listing_response. cbn [json_body bind].
  destruct page as [|i r].
  - cbn [truthy negb]. simpl. now rewrite app_nil_r.
  - change (truthy (JArr (i :: r))) with true. cbn [negb].
    rewrite (no_message_among_objects _ H). cbn [bind py_iter].
    rewrite (without_pull_requests_objects _ H). reflexivity.
Qed.

Lemma issues_loop_body_error (status : Z) (message : string) (issues : list json) :
  issues_loop_body (error_response status message) issues = Returns (issues, false).
Proof.
  unfold issues_loop_body, error_response. cbn [json_body bind truthy negb].
  unfold contains. cbn [lookup]. rewrite String.eqb_refl. reflexivity.
Qed.

Lemma page_numbers_succ (first : Z) (n : nat) :
  page_numbers first (S n) = first :: page_numbers (first + 1) n.
Proof.
  unfold page_numbers. cbn [seq map]. rewrite Z.add_0_r. f_equal.
  rewrite <- seq_shift, map_map. apply map_ext. intros i. lia.
Qed.

Lemma issues_loop_full_pages
  (full : list (Z * list json)) (rest : list response)
  (page : Z) (issues : list json) (asked : list Z) :
  forallb full_page full = true ->
  issues_loop (map (fun p => listing_response (fst p) (snd p)) full ++ rest)
              page issues asked
  = issues_loop rest (page + Z.of_nat (List.length full))
                (issues ++ flat_map (fun p => filter not_pull_request (snd p)) full)
                (asked ++ page_numbers page (List.length full)).
Proof.
  revert page issues asked. induction full as [|[st p] full IH];
    intros page issues asked H.
  - cbn. now rewrite Z.add_0_r, !app_nil_r.
  - simpl in H. apply andb_true_iff in H. destruct H as [Hp Hfull].
    unfold full_page in Hp. apply andb_true_iff in Hp. destruct Hp as [Hobj Hlen].
    cbn [map app fst snd issues_loop].
    rewrite (issues_loop_body_page st p issues Hobj).
    simpl snd in Hlen. apply Nat.leb_le in Hlen.
    assert (Hnot : (List.length p <? PER_PAGE)%nat = false) by (apply Nat.ltb_ge; exact Hlen).
    rewrite Hnot. cbn [negb]. rewrite (IH _ _ _ Hfull).
    cbn [List.length flat_map snd]. rewrite page_numbers_succ.
    rewrite <- !app_assoc. cbn [app]. f_equal. lia.
Qed.

(** X25: [fetch_issues] asks for page 1, 2, ... until a page comes with
    fewer than [PER_PAGE] entries, and returns the entries of all those
    pages that are not pull requests, in order; the transport status of
    the replies plays no part. *)
Theorem fetch_issues_until_short_page
  (full : list (Z * list json)) (status : Z) (last_page : list json)
  (extra : list response) :
  forallb full_page full = true ->
  forallb is_object last_page = true ->
  (List.length last_page < PER_PAGE)%nat ->
  fetch_issues (map (fun p => listing_response (fst p) (snd p)) full
                ++ listing_response status last_page :: extra)
  = mkIssuesRun
      (page_numbers 1 (S (List.length full)))
      (Some (Returns (flat_map (filter not_pull_request)
                               (map snd full ++ [last_page])))).
Proof.
  intros Hfull Hobj Hlen. unfold fetch_issues.
  rewrite (issues_loop_full_pages full _ 1 [] [] Hfull).
  cbn [issues_loop]. rewrite (issues_loop_body_page status last_page _ Hobj).
  apply Nat.ltb_lt in Hlen. rewrite Hlen. cbn [negb app]. f_equal.
  - unfold page_numbers. rewrite seq_S, map_app. reflexivity.
  - rewrite flat_map_app. cbn [flat_map]. rewrite app_nil_r.
    do 2 f_equal. rewrite flat_map_concat_map, (flat_map_concat_map _ (map snd full)).
    now rewrite map_map.
Qed.

(** X26: a reply that is an error object (with a [message]) ends
    [fetch_issues] without an exception: the issues of the pages before
    it are returned as if the listing were complete. *)
Theorem fetch_issues_swallows_error
  (full : list (Z * list json)) (status : Z) (message : string)
  (extra : list response) :
  forallb full_page full = true ->
  fetch_issues (map (fun p => listing_response (fst p) (snd p)) full
                ++ error_response status message :: extra)
  = mkIssuesRun
      (page_numbers 1 (S (List.length full)))
      (Some (Returns (flat_map (filter not_pull_request) (map snd full)))).
Proof.
  intros Hfull. unfold fetch_issues.
  rewrite (issues_loop_full_pages full _ 1 [] [] Hfull).
  cbn [issues_loop]. rewrite issues_loop_body_error. cbn [app]. f_equal.
  - unfold page_numbers. rewrite seq_S, map_app. reflexivity.
  - do 2 f_equal. rewrite flat_map_concat_map, (flat_map_concat_map _ (map snd full)).
    now rewrite map_map.
Qed.

Lemma fetch_issues_until_short_page_witness :
  full_page (200, FetchSamples.rest_full_page) = true
  /\ fetch_issues [listing_response 200 FetchSamples.rest_full_page;
                   listing_response 200 [FetchSamples.rest_pull_request;
                                         FetchSamples.rest_issue]]
     = mkIssuesRun [1; 2] (Some (Returns (repeat FetchSamples.rest_issue 61))).
Proof.
  assert (Hfull : forallb full_page [(200, FetchSamples.rest_full_page)] = true)
    by (vm_compute; reflexivity).
  split; [vm_compute; reflexivity|].
  exact (fetch_issues_until_short_page [(200, FetchSamples.rest_full_page)] 200
           [FetchSamples.rest_pull_request; FetchSamples.rest_issue] []
           Hfull eq_refl (Nat.lt_le_trans _ _ _ (Nat.lt_succ_diag_r 2)
                                           (Nat.le_add_l 3 97))).
Defined.

Lemma fetch_issues_swallows_error_witness :
  full_page (200, FetchSamples.rest_full_page) = true
  /\ fetch_issues [listing_response 200 FetchSamples.rest_full_page;
                   error_response 403 "API rate limit exceeded"]
     = mkIssuesRun [1; 2] (Some (Returns (repeat FetchSamples.rest_issue 60))).
Proof.
  assert (Hfull : forallb full_page [(200, FetchSamples.rest_full_page)] = true)
    by (vm_compute; reflexivity).
  split; [vm_compute; reflexivity|].
  exact (fetch_issues_swallows_error [(200, FetchSamples.rest_full_page)] 403
           "API rate limit exceeded" [] Hfull).
Defined.

End IssueReportFacts.
